(** * MiniKanbanApp: the task and project services

    A shallow embedding of [TasksService] (tasks.service.ts) and
    [ProjectsService] (projects.service.ts) of the backend, over a model of
    the three Mongoose collections they use.

    Conventions of the embedding.
    - An [ObjectId] is its hexadecimal string; route parameters and DTO id
      fields are taken to be well-formed ids, so [new Types.ObjectId(s)] is
      the identity and [toString] compares hexadecimal strings.
    - A [Date] is its number of milliseconds since the epoch.
    - Integer-valued JavaScript numbers (counts, page numbers) are [Z]; they
      are exact below 2^53.  The one computation whose double-precision
      rounding is observable, the completion rate, is carried out in IEEE 754
      binary64 ([SpecFloat]).
    - An [async] method is a function from the database to the database
      after the call and either the resolved value or the exception the
      promise is rejected with. *)

From Stdlib Require Import ZArith String Ascii List Lia Bool.
From Corelib Require Import SpecFloat.
From stdpp Require Import gmap strings list fin_maps sorting.

Local Open Scope string_scope.
Local Open Scope Z_scope.

(** ** common/enums *)

Module Enums.

(** Modelled from the spec: common/enums.ts is not among the sources; the
    spec gives role in {admin, member}. *)
Inductive UserRole := ADMIN | MEMBER.

(** Modelled from the spec: status in {todo, in_progress, done}; the string
    values are those the service itself writes in [getProjectSummary]. *)
Inductive TaskStatus := TODO | IN_PROGRESS | DONE.

(** Modelled from the spec: priority in {low, medium, high}. *)
Inductive TaskPriority := LOW | MEDIUM | HIGH.

Definition UserRole_eqb (a b : UserRole) : bool :=
  match a, b with ADMIN, ADMIN | MEMBER, MEMBER => true | _, _ => false end.

Definition TaskStatus_eqb (a b : TaskStatus) : bool :=
  match a, b with
  | TODO, TODO | IN_PROGRESS, IN_PROGRESS | DONE, DONE => true
  | _, _ => false
  end.

Definition TaskPriority_eqb (a b : TaskPriority) : bool :=
  match a, b with
  | LOW, LOW | MEDIUM, MEDIUM | HIGH, HIGH => true
  | _, _ => false
  end.

Definition TaskStatus_value (s : TaskStatus) : string :=
  match s with TODO => "todo" | IN_PROGRESS => "in_progress" | DONE => "done" end.

Definition TaskPriority_value (p : TaskPriority) : string :=
  match p with LOW => "low" | MEDIUM => "medium" | HIGH => "high" end.

End Enums.
Export Enums.

(** ** Schemas *)

Abbreviation ObjectId := string (only parsing).
Abbreviation Date := Z (only parsing).

(** users/schemas/user.schema.ts *)
Record User := {
  user_name : string;
  user_email : string;
  user_passwordHash : string;
  user_role : UserRole;
}.

(** projects/schemas/project.schema.ts *)
Record Project := {
  project_name : string;
  project_key : string;
  project_members : list ObjectId;
  project_createdBy : ObjectId;
  project_createdAt : Date;
  project_updatedAt : Date;
}.

(** tasks/schemas/task.schema.ts; the fields without [required] or a
    default may be absent. *)
Record Task := {
  projectId : ObjectId;
  title : string;
  description : option string;
  status : TaskStatus;
  priority : TaskPriority;
  assignee : option ObjectId;
  dueDate : option Date;
  createdBy : ObjectId;
  createdAt : Date;
  updatedAt : Date;
}.

(** The database: one collection per model, keyed by [_id]. *)
Record Db := {
  users : gmap string User;
  projects : gmap string Project;
  tasks : gmap string Task;
}.

(** ** Promises *)

(** The exceptions of @nestjs/common the services throw, and the 500 that
    Nest answers for any other exception (a TypeError, a driver error). *)
Inductive HttpException :=
| NotFoundException (message : string)
| ForbiddenException (message : string)
| InternalServerError.

Definition getStatus (e : HttpException) : Z :=
  match e with
  | NotFoundException _ => 404
  | ForbiddenException _ => 403
  | InternalServerError => 500
  end.

Inductive Outcome (A : Type) :=
| Resolved (value : A)
| Rejected (reason : HttpException).
Arguments Resolved {A} value.
Arguments Rejected {A} reason.

Definition Async (A : Type) : Type := Db -> Db * Outcome A.

#[export] Instance Async_ret : MRet Async :=
  fun A (a : A) db => (db, Resolved a).

#[export] Instance Async_bind : MBind Async :=
  fun A B (k : A -> Async B) (m : Async A) db =>
    match m db with
    | (db', Resolved a) => k a db'
    | (db', Rejected e) => (db', Rejected e)
    end.

Definition throw {A} (e : HttpException) : Async A :=
  fun db => (db, Rejected e).

Definition query {A} (f : Db -> A) : Async A :=
  fun db => (db, Resolved (f db)).

Definition rejectedWith {A} (r : Db * Outcome A) (code : Z) : bool :=
  match r.2 with Resolved _ => false | Rejected e => Z.eqb (getStatus e) code end.

(** ** JavaScript helpers *)

(** Truthiness of an optional string: [undefined] and [''] are falsy. *)
Definition truthy (s : option string) : bool :=
  match s with
  | Some (String _ _) => true
  | _ => false
  end.

(** [Array.prototype.some] with [member.toString() === userId]. *)
Definition isMemberOf (members : list ObjectId) (userId : string) : bool :=
  existsb (fun member => String.eqb member userId) members.

(** ** The Mongoose model API used by the services *)

(** The query conditions the services build. *)
Inductive Condition :=
| projectId_eq (id : ObjectId)
| status_eq (s : TaskStatus)
| status_ne (s : TaskStatus)
| assignee_eq (id : ObjectId)
| priority_eq (p : TaskPriority)
| dueDate_gte (d : Date)
| dueDate_lte (d : Date)
| dueDate_lt (d : Date)
| text_search (q : string).

Definition Filter := list Condition.

(** A document read from the tasks collection: its [_id] and its fields. *)
Abbreviation TaskDocument := (string * Task)%type (only parsing).

(** A reference after [populate(path, 'name email')]. *)
Record UserRef := {
  ref_id : ObjectId;
  ref_name : string;
  ref_email : string;
}.

(** A task with [assignee] and [createdBy] populated; a reference whose
    user document does not exist populates to [null]. *)
Record PopulatedTask := {
  pt_id : ObjectId;
  pt_task : Task;
  pt_assignee : option UserRef;
  pt_createdBy : option UserRef;
}.

Section Models.

(** MongoDB's text index match ([$text: { $search }]) is the database's:
    it is a parameter of the model. *)
Variable textMatches : string -> Task -> bool.

Definition holds (c : Condition) (t : Task) : bool :=
  match c with
  | projectId_eq id => String.eqb (projectId t) id
  | status_eq s => TaskStatus_eqb (status t) s
  | status_ne s => negb (TaskStatus_eqb (status t) s)
  | assignee_eq id =>
      match assignee t with Some a => String.eqb a id | None => false end
  | priority_eq p => TaskPriority_eqb (priority t) p
  | dueDate_gte d =>
      match dueDate t with Some x => d <=? x | None => false end
  | dueDate_lte d =>
      match dueDate t with Some x => x <=? d | None => false end
  | dueDate_lt d =>
      match dueDate t with Some x => x <? d | None => false end
  | text_search q => textMatches q t
  end.

Definition matches (f : Filter) (doc : TaskDocument) : bool :=
  forallb (fun c => holds c doc.2) f.

(** [taskModel.find(filter)]: the matching documents of the collection. *)
Definition find (f : Filter) (db : Db) : list TaskDocument :=
  List.filter (matches f) (map_to_list (tasks db)).

(** [taskModel.countDocuments(filter)] *)
Definition countDocuments (f : Filter) : Async Z :=
  query (fun db => Z.of_nat (length (find f db))).

(** [taskModel.exists(filter)], as a truth value. *)
Definition exists_ (f : Filter) : Async bool :=
  query (fun db => match find f db with [] => false | _ :: _ => true end).

(** [.sort({ createdAt: -1 })] *)
Definition newerFirst (a b : TaskDocument) : Prop :=
  createdAt b.2 <= createdAt a.2.

#[export] Instance newerFirst_dec a b : Decision (newerFirst a b).
Proof. unfold newerFirst. apply _. Defined.

Definition sort_createdAt_desc (l : list TaskDocument) : list TaskDocument :=
  merge_sort newerFirst l.

(** [.skip(n)]: MongoDB rejects a negative skip. *)
Definition skip (n : Z) (l : list TaskDocument) : option (list TaskDocument) :=
  if n <? 0 then None else Some (drop (Z.to_nat n) l).

(** [.limit(n)]: 0 is no limit, and the driver sends a negative limit as
    its absolute value. *)
Definition limit (n : Z) (l : list TaskDocument) : list TaskDocument :=
  if n =? 0 then l else take (Z.to_nat (Z.abs n)) l.

Definition populateUser (db : Db) (id : ObjectId) : option UserRef :=
  match users db !! id with
  | Some u => Some {| ref_id := id; ref_name := user_name u; ref_email := user_email u |}
  | None => None
  end.

(** [.populate('assignee', 'name email').populate('createdBy', 'name email')] *)
Definition populate (db : Db) (doc : TaskDocument) : PopulatedTask :=
  {| pt_id := doc.1;
     pt_task := doc.2;
     pt_assignee := assignee doc.2 ≫= populateUser db;
     pt_createdBy := populateUser db (createdBy doc.2) |}.

(** [projectModel.findById(id)] *)
Definition projectModel_findById (id : ObjectId) : Async (option Project) :=
  query (fun db => projects db !! id).

(** [taskModel.findById(id)] *)
Definition taskModel_findById (id : ObjectId) : Async (option Task) :=
  query (fun db => tasks db !! id).

(** [taskModel.findByIdAndDelete(id)]: the deleted document, or [null]. *)
Definition taskModel_findByIdAndDelete (id : ObjectId) : Async (option Task) :=
  fun db =>
    ({| users := users db; projects := projects db; tasks := delete id (tasks db) |},
     Resolved (tasks db !! id)).

(** [projectModel.findByIdAndDelete(id)] *)
Definition projectModel_findByIdAndDelete (id : ObjectId) : Async (option Project) :=
  fun db =>
    ({| users := users db; projects := delete id (projects db); tasks := tasks db |},
     Resolved (projects db !! id)).

(** [findByIdAndUpdate(id, update, { new: true })]: the document after the
    update, or [null] when there is none with that id. *)
Definition taskModel_findByIdAndUpdate (id : ObjectId) (update : Task -> Task)
  : Async (option Task) :=
  fun db =>
    ({| users := users db; projects := projects db; tasks := alter update id (tasks db) |},
     Resolved (update <$> tasks db !! id)).

Definition projectModel_findByIdAndUpdate (id : ObjectId) (update : Project -> Project)
  : Async (option Project) :=
  fun db =>
    ({| users := users db; projects := alter update id (projects db); tasks := tasks db |},
     Resolved (update <$> projects db !! id)).

(** [new this.taskModel(doc).save()]: an insert; a duplicate [_id] is the
    driver's E11000 error. *)
Definition taskModel_save (id : ObjectId) (t : Task) : Async TaskDocument :=
  fun db =>
    match tasks db !! id with
    | Some _ => (db, Rejected InternalServerError)
    | None =>
        ({| users := users db; projects := projects db; tasks := <[id := t]> (tasks db) |},
         Resolved (id, t))
    end.

(** The unique index on [key] of the projects collection
    ([ProjectSchema.index({ key: 1 }, { unique: true })]): some other
    document holds the key. *)
Definition keyTaken (db : Db) (id : ObjectId) (key : string) : bool :=
  existsb (fun doc => negb (String.eqb doc.1 id) && String.eqb (project_key doc.2) key)
          (map_to_list (projects db)).

(** [new this.projectModel(doc).save()]: an insert; a duplicate [_id] or a
    key held by another project is the driver's E11000 error. *)
Definition projectModel_save (id : ObjectId) (p : Project) : Async (string * Project) :=
  fun db =>
    match projects db !! id with
    | Some _ => (db, Rejected InternalServerError)
    | None =>
        if keyTaken db id (project_key p) then (db, Rejected InternalServerError)
        else ({| users := users db; projects := <[id := p]> (projects db);
                 tasks := tasks db |},
              Resolved (id, p))
    end.

(** [findByIdAndUpdate] with an update that may write [key]: the unique
    index rejects a changed key that another project holds. *)
Definition projectModel_findByIdAndUpdate_key (id : ObjectId) (update : Project -> Project)
  : Async (option Project) :=
  fun db =>
    match projects db !! id with
    | None => (db, Resolved None)
    | Some doc =>
        if negb (String.eqb (project_key (update doc)) (project_key doc))
           && keyTaken db id (project_key (update doc))
        then (db, Rejected InternalServerError)
        else projectModel_findByIdAndUpdate id update db
    end.

End Models.

(** ** JavaScript numbers and strings *)

(** Characters that [parseInt] skips and that [\s] matches, among the
    ASCII ones: TAB, LF, VT, FF, CR and space. *)
Definition isWhiteSpace (c : ascii) : bool :=
  let n := Z.of_nat (nat_of_ascii c) in
  ((9 <=? n) && (n <=? 13)) || (n =? 32).

Fixpoint trimStart (s : string) : string :=
  match s with
  | String c r => if isWhiteSpace c then trimStart r else s
  | EmptyString => s
  end.

Definition digitValue (c : ascii) : option Z :=
  let n := Z.of_nat (nat_of_ascii c) in
  if (48 <=? n) && (n <=? 57) then Some (n - 48)
  else if (97 <=? n) && (n <=? 122) then Some (n - 87)
  else if (65 <=? n) && (n <=? 90) then Some (n - 55)
  else None.

(** The longest prefix of digits of the radix; [None] when it is empty. *)
Fixpoint parseDigits (radix : Z) (s : string) (acc : option Z) : option Z :=
  match s with
  | EmptyString => acc
  | String c r =>
      match digitValue c with
      | Some d =>
          if d <? radix then parseDigits radix r (Some (radix * default 0 acc + d))
          else acc
      | None => acc
      end
  end.

(** [parseInt(input)] with no radix; [None] is NaN, and [undefined] reads
    as the string "undefined", which has no digit. *)
Definition parseInt (input : option string) : option Z :=
  match input with
  | None => None
  | Some s =>
      let s1 := trimStart s in
      let '(sign, s2) :=
        match s1 with
        | String "-" r => (-1, r)
        | String "+" r => (1, r)
        | _ => (1, s1)
        end in
      let '(radix, s3) :=
        match s2 with
        | String "0" (String "x" r) | String "0" (String "X" r) => (16, r)
        | _ => (10, s2)
        end in
      (fun n => sign * n) <$> parseDigits radix s3 None
  end.

(** [n || d] on a number: NaN and 0 are falsy. *)
Definition orElse (n : option Z) (d : Z) : Z :=
  match n with
  | Some v => if v =? 0 then d else v
  | None => d
  end.

(** [Math.ceil(a / b)] for integers [a] and [b <> 0]. *)
Definition Math_ceil_div (a b : Z) : Z := - ((- a) / b).

Definition LF : string := String "010"%char EmptyString.

(** [s.replace(/\s+/g, '_')] *)
Fixpoint replaceWhitespaceRuns (inRun : bool) (s : string) : string :=
  match s with
  | EmptyString => EmptyString
  | String c r =>
      if isWhiteSpace c
      then (if inRun then replaceWhitespaceRuns true r
            else String "_" (replaceWhitespaceRuns true r))
      else String c (replaceWhitespaceRuns false r)
  end.

(** [s.split(sep)[0]] for a one-character separator. *)
Fixpoint splitHead (sep : ascii) (s : string) : string :=
  match s with
  | EmptyString => EmptyString
  | String c r => if Ascii.eqb c sep then EmptyString else String c (splitHead sep r)
  end.

(** [parts.join(sep)] *)
Fixpoint join (sep : string) (parts : list string) : string :=
  match parts with
  | [] => EmptyString
  | [x] => x
  | x :: rest => x +:+ sep +:+ join sep rest
  end.

(** *** Doubles *)

Definition Number := spec_float.

Definition Number_of_Z (n : Z) : Number := binary_normalize 53 1024 n 0 false.
Definition Number_div (x y : Number) : Number := SFdiv 53 1024 x y.
Definition Number_mul (x y : Number) : Number := SFmul 53 1024 x y.

(** [Math.round(x)]: the integer nearest to [x], a half going up; zeros,
    infinities and NaN are returned as they are. *)
Definition Math_round (x : Number) : Number :=
  match x with
  | S754_finite s m e =>
      let v := if s then Z.neg m else Z.pos m in
      let r := if 0 <=? e then v * 2 ^ e else (2 * v + 2 ^ (- e)) / 2 ^ (1 - e) in
      if (r =? 0) && s then S754_zero true else Number_of_Z r
  | _ => x
  end.

(** The integer a double holds, when it holds one. *)
Definition Number_to_Z (x : Number) : option Z :=
  match x with
  | S754_zero _ => Some 0
  | S754_finite s m e =>
      let v := if s then Z.neg m else Z.pos m in
      if 0 <=? e then Some (v * 2 ^ e)
      else if v mod 2 ^ (- e) =? 0 then Some (v / 2 ^ (- e)) else None
  | _ => None
  end.

(** ** DTOs and responses *)

(** tasks/dto/create-task.dto.ts *)
Record CreateTaskDto := {
  create_title : string;
  create_description : option string;
  create_status : option TaskStatus;
  create_priority : option TaskPriority;
  create_assignee : option string;
  create_dueDate : option string;
}.

(** tasks/dto/update-task.dto.ts *)
Record UpdateTaskDto := {
  update_title : option string;
  update_description : option string;
  update_status : option TaskStatus;
  update_priority : option TaskPriority;
  update_assignee : option string;
  update_dueDate : option string;
}.

(** tasks/dto/query-tasks.dto.ts *)
Record QueryTasksDto := {
  query_status : option TaskStatus;
  query_assignee : option string;
  query_q : option string;
  query_priority : option TaskPriority;
  query_dueFrom : option string;
  query_dueTo : option string;
  query_page : option string;
  query_limit : option string;
}.

Record Pagination := {
  page : Z;
  limit_ : Z;
  total : Z;
  pages : Z;
}.

Record TaskList := {
  list_tasks : list PopulatedTask;
  pagination : Pagination;
}.

Record ProjectSummary := {
  summary_total : Z;
  summary_todo : Z;
  summary_inProgress : Z;
  summary_done : Z;
  summary_overdue : Z;
  completionRate : Number;
}.

(** The express response, as far as [exportToCsv] touches it: the headers
    by name, and the body once sent. *)
Record Response := {
  headers : gmap string string;
  body : option string;
}.

Definition setHeader (name value : string) (res : Response) : Response :=
  {| headers := <[name := value]> (headers res); body := body res |}.

Definition send (data : string) (res : Response) : Response :=
  {| headers := headers res; body := Some data |}.

(** One element of [csvData]. *)
Record CsvRow := {
  row_id : string;
  row_title : string;
  row_description : string;
  row_status : string;
  row_priority : string;
  row_assignee : string;
  row_assigneeEmail : string;
  row_dueDate : string;
  row_createdBy : string;
  row_createdAt : string;
  row_updatedAt : string;
}.

Definition csvHeader : string :=
  "ID,Title,Description,Status,Priority,Assignee,Assignee Email,Due Date,Created By,Created At,Updated At".

Definition DQ : string := String "034"%char EmptyString.

(** The template literal of one data row. *)
Definition csvLine (row : CsvRow) : string :=
  DQ +:+ row_id row +:+ DQ +:+ "," +:+
  DQ +:+ row_title row +:+ DQ +:+ "," +:+
  DQ +:+ row_description row +:+ DQ +:+ "," +:+
  DQ +:+ row_status row +:+ DQ +:+ "," +:+
  DQ +:+ row_priority row +:+ DQ +:+ "," +:+
  DQ +:+ row_assignee row +:+ DQ +:+ "," +:+
  DQ +:+ row_assigneeEmail row +:+ DQ +:+ "," +:+
  DQ +:+ row_dueDate row +:+ DQ +:+ "," +:+
  DQ +:+ row_createdBy row +:+ DQ +:+ "," +:+
  DQ +:+ row_createdAt row +:+ DQ +:+ "," +:+
  DQ +:+ row_updatedAt row +:+ DQ.

(** ** tasks.service.ts *)

Module TasksService.
Section TasksService.

(** What the services take from their environment: the text index of the
    database, the [Date] constructor on a date string, and
    [Date.prototype.toISOString]. *)
Variable textMatches : string -> Task -> bool.
Variable Date_parse : string -> Date.
Variable toISOString : Date -> string.

Definition create (newId : ObjectId) (now : Date)
    (projectId : string) (createTaskDto : CreateTaskDto)
    (userId : string) (userRole : UserRole) : Async PopulatedTask :=
  project ← projectModel_findById projectId;
  match project with
  | None => throw (NotFoundException "Project not found")
  | Some project =>
      (if negb (UserRole_eqb userRole ADMIN) then
         let isMember := isMemberOf (project_members project) userId in
         hasTasksInProject ← exists_ textMatches [projectId_eq projectId; assignee_eq userId];
         if negb isMember && negb hasTasksInProject
         then throw (ForbiddenException "Access denied to this project")
         else mret tt
       else mret tt);;
      let task :=
        {| projectId := projectId;
           title := create_title createTaskDto;
           description := create_description createTaskDto;
           status := default TODO (create_status createTaskDto);
           priority := default MEDIUM (create_priority createTaskDto);
           assignee :=
             if truthy (create_assignee createTaskDto)
             then create_assignee createTaskDto else None;
           dueDate :=
             if truthy (create_dueDate createTaskDto)
             then Date_parse <$> create_dueDate createTaskDto else None;
           createdBy := userId;
           createdAt := now;
           updatedAt := now |} in
      savedTask ← taskModel_save newId task;
      query (fun db => populate db savedTask)
  end.

(** The filter [findAll] builds from the query. *)
Definition buildFilter (projectId : string) (query_ : QueryTasksDto) : Filter :=
  ([projectId_eq projectId]
  ++ (if query_status query_ is Some s then [status_eq s] else [])
  ++ (if truthy (query_assignee query_)
      then [assignee_eq (default EmptyString (query_assignee query_))] else [])
  ++ (if query_priority query_ is Some p then [priority_eq p] else [])
  ++ (if truthy (query_dueFrom query_) || truthy (query_dueTo query_)
      then (if truthy (query_dueFrom query_)
            then [dueDate_gte (Date_parse (default EmptyString (query_dueFrom query_)))]
            else [])
           ++ (if truthy (query_dueTo query_)
               then [dueDate_lte (Date_parse (default EmptyString (query_dueTo query_)))]
               else [])
      else [])
  ++ (if truthy (query_q query_)
      then [text_search (default EmptyString (query_q query_))] else []))%list.

Definition findAll (projectId : string) (query_ : QueryTasksDto)
    (userId : string) (userRole : UserRole) : Async TaskList :=
  project ← projectModel_findById projectId;
  match project with
  | None => throw (NotFoundException "Project not found")
  | Some project =>
      (if negb (UserRole_eqb userRole ADMIN) then
         let isMember := isMemberOf (project_members project) userId in
         hasTasksInProject ← exists_ textMatches [projectId_eq projectId; assignee_eq userId];
         if negb isMember && negb hasTasksInProject
         then throw (ForbiddenException "Access denied to this project")
         else mret tt
       else mret tt);;
      let page := orElse (parseInt (query_page query_)) 1 in
      let limit_ := orElse (parseInt (query_limit query_)) 10 in
      let skip_ := (page - 1) * limit_ in
      let filter := buildFilter projectId query_ in
      tasks ← (fun db =>
                 match skip skip_ (sort_createdAt_desc (find textMatches filter db)) with
                 | Some rest => (db, Resolved (populate db <$> limit limit_ rest))
                 | None => (db, Rejected InternalServerError)
                 end);
      total ← countDocuments textMatches filter;
      mret {| list_tasks := tasks;
              pagination := {| page := page;
                               limit_ := limit_;
                               total := total;
                               pages := Math_ceil_div total limit_ |} |}
  end.

Definition findOne (id : string) (userId : string) (userRole : UserRole)
  : Async PopulatedTask :=
  task ← taskModel_findById id;
  match task with
  | None => throw (NotFoundException "Task not found")
  | Some task =>
      (* populate('projectId', 'name key members'): null when the project is gone *)
      project ← projectModel_findById (projectId task);
      (if negb (UserRole_eqb userRole ADMIN) then
         match project with
         | None => throw InternalServerError
         | Some project =>
             if negb (isMemberOf (project_members project) userId)
             then throw (ForbiddenException "Access denied to this task")
             else mret tt
         end
       else mret tt);;
      query (fun db => populate db (id, task))
  end.

Definition update (now : Date) (id : string) (updateTaskDto : UpdateTaskDto)
    (userId : string) (userRole : UserRole) : Async (option PopulatedTask) :=
  task ← taskModel_findById id;
  match task with
  | None => throw (NotFoundException "Task not found")
  | Some task =>
      project ← projectModel_findById (projectId task);
      (if negb (UserRole_eqb userRole ADMIN) then
         match project with
         | None => throw InternalServerError
         | Some project =>
             if negb (isMemberOf (project_members project) userId)
             then throw (ForbiddenException "Access denied to this project")
             else if negb (bool_decide (assignee task = Some userId))
             then throw (ForbiddenException "You can only update tasks assigned to you")
             else mret tt
         end
       else mret tt);;
      (* a key whose value is undefined is not part of the update *)
      let newAssignee :=
        if truthy (update_assignee updateTaskDto)
        then update_assignee updateTaskDto else assignee task in
      let newDueDate :=
        if truthy (update_dueDate updateTaskDto)
        then Date_parse <$> update_dueDate updateTaskDto else dueDate task in
      updatedTask ← taskModel_findByIdAndUpdate id (fun doc =>
        {| projectId := projectId doc;
           title := default (title doc) (update_title updateTaskDto);
           description :=
             if update_description updateTaskDto is Some d then Some d
             else description doc;
           status := default (status doc) (update_status updateTaskDto);
           priority := default (priority doc) (update_priority updateTaskDto);
           assignee := if newAssignee is Some a then Some a else assignee doc;
           dueDate := if newDueDate is Some d then Some d else dueDate doc;
           createdBy := createdBy doc;
           createdAt := createdAt doc;
           updatedAt := now |});
      query (fun db => (fun t => populate db (id, t)) <$> updatedTask)
  end.

Definition remove (id : string) (userRole : UserRole) : Async unit :=
  if negb (UserRole_eqb userRole ADMIN)
  then throw (ForbiddenException "Only admins can delete tasks")
  else
    result ← taskModel_findByIdAndDelete id;
    match result with
    | None => throw (NotFoundException "Task not found")
    | Some _ => mret tt
    end.

Definition getProjectSummary (now : Date) (projectId : string)
    (userId : string) (userRole : UserRole) : Async ProjectSummary :=
  project ← projectModel_findById projectId;
  match project with
  | None => throw (NotFoundException "Project not found")
  | Some project =>
      (if negb (UserRole_eqb userRole ADMIN) then
         let isMember := isMemberOf (project_members project) userId in
         (* Only members can access dashboard, not just task assignees *)
         if negb isMember
         then throw (ForbiddenException "Access denied to this project dashboard")
         else mret tt
       else mret tt);;
      totalTasks ← countDocuments textMatches [projectId_eq projectId];
      todoTasks ← countDocuments textMatches [projectId_eq projectId; status_eq TODO];
      inProgressTasks ← countDocuments textMatches [projectId_eq projectId; status_eq IN_PROGRESS];
      doneTasks ← countDocuments textMatches [projectId_eq projectId; status_eq DONE];
      overdueTasks ← countDocuments textMatches
                       [projectId_eq projectId; dueDate_lt now; status_ne DONE];
      mret {| summary_total := totalTasks;
              summary_todo := todoTasks;
              summary_inProgress := inProgressTasks;
              summary_done := doneTasks;
              summary_overdue := overdueTasks;
              completionRate :=
                if 0 <? totalTasks
                then Math_round (Number_mul (Number_div (Number_of_Z doneTasks)
                                                        (Number_of_Z totalTasks))
                                            (Number_of_Z 100))
                else Number_of_Z 0 |}
  end.

(** One element of [csvData]; [None] is the TypeError of reading [name]
    of a [createdBy] that populated to [null]. *)
Definition csvRowOf (task : PopulatedTask) : option CsvRow :=
  creator ← pt_createdBy task;
  Some {| row_id := pt_id task;
          row_title := title (pt_task task);
          row_description :=
            if truthy (description (pt_task task))
            then default EmptyString (description (pt_task task)) else EmptyString;
          row_status := TaskStatus_value (status (pt_task task));
          row_priority := TaskPriority_value (priority (pt_task task));
          row_assignee :=
            if pt_assignee task is Some a then ref_name a else EmptyString;
          row_assigneeEmail :=
            if pt_assignee task is Some a then ref_email a else EmptyString;
          row_dueDate :=
            if dueDate (pt_task task) is Some d then toISOString d else EmptyString;
          row_createdBy := ref_name creator;
          row_createdAt := toISOString (createdAt (pt_task task));
          row_updatedAt := toISOString (updatedAt (pt_task task)) |}.

Definition exportToCsv (now : Date) (projectId : string) (res : Response)
    (userId : string) (userRole : UserRole) : Async Response :=
  project ← projectModel_findById projectId;
  match project with
  | None => throw (NotFoundException "Project not found")
  | Some project =>
      (if negb (UserRole_eqb userRole ADMIN) then
         let isMember := isMemberOf (project_members project) userId in
         hasTasksInProject ← exists_ textMatches [projectId_eq projectId; assignee_eq userId];
         if negb isMember && negb hasTasksInProject
         then throw (ForbiddenException "Access denied to this project")
         else mret tt
       else mret tt);;
      tasks ← query (fun db =>
                 populate db <$> sort_createdAt_desc
                                   (find textMatches [projectId_eq projectId] db));
      match mapM csvRowOf tasks with
      | None => throw InternalServerError
      | Some csvData =>
          let filename :=
            replaceWhitespaceRuns false (project_name project) +:+ "_tasks_"
            +:+ splitHead "T" (toISOString now) +:+ ".csv" in
          let res1 := setHeader "Content-Type" "text/csv" res in
          let res2 := setHeader "Content-Disposition"
                        ("attachment; filename=" +:+ DQ +:+ filename +:+ DQ) res1 in
          let csvString := join LF (csvHeader :: (csvLine <$> csvData)) in
          mret (send csvString res2)
      end
  end.

End TasksService.
End TasksService.

(** ** projects.service.ts *)

(** A project with [members] and [createdBy] populated; populating an
    array drops the references whose user document does not exist. *)
Record PopulatedProject := {
  pp_id : ObjectId;
  pp_project : Project;
  pp_members : list UserRef;
  pp_createdBy : option UserRef;
}.

(** projects/dto/create-project.dto.ts *)
Record CreateProjectDto := {
  newProject_name : string;
  newProject_key : string;
  newProject_members : option (list string);
}.

(** projects/dto/update-project.dto.ts *)
Record UpdateProjectDto := {
  changed_name : option string;
  changed_key : option string;
  changed_members : option (list string);
}.

Module ProjectsService.
Section ProjectsService.

Variable textMatches : string -> Task -> bool.

Definition populateProject (db : Db) (id : ObjectId) (p : Project) : PopulatedProject :=
  {| pp_id := id;
     pp_project := p;
     pp_members := omap (populateUser db) (project_members p);
     pp_createdBy := populateUser db (project_createdBy p) |}.

Definition findOne (id : string) (userId : string) (userRole : UserRole)
  : Async PopulatedProject :=
  project ← query (fun db => populateProject db id <$> projects db !! id);
  match project with
  | None => throw (NotFoundException "Project not found")
  | Some project =>
      (if negb (UserRole_eqb userRole ADMIN) then
         let isMember :=
           existsb (fun member => String.eqb (ref_id member) userId) (pp_members project) in
         hasTasksInProject ← exists_ textMatches [projectId_eq (pp_id project); assignee_eq userId];
         if negb isMember && negb hasTasksInProject
         then throw (ForbiddenException "Access denied to this project")
         else mret tt
       else mret tt);;
      mret project
  end.

Definition remove (id : string) (userRole : UserRole) : Async unit :=
  if negb (UserRole_eqb userRole ADMIN)
  then throw (ForbiddenException "Only admins can delete projects")
  else
    result ← projectModel_findByIdAndDelete id;
    match result with
    | None => throw (NotFoundException "Project not found")
    | Some _ => mret tt
    end.

(** [$addToSet: { members: { $each: memberIds } }] *)
Definition addToSet (members memberIds : list ObjectId) : list ObjectId :=
  fold_left (fun acc id => if isMemberOf acc id then acc else acc ++ [id])%list
            memberIds members.

Definition addMembers (now : Date) (id : string) (userIds : list string)
    (userRole : UserRole) : Async PopulatedProject :=
  if negb (UserRole_eqb userRole ADMIN)
  then throw (ForbiddenException "Only admins can add project members")
  else
    let memberIds := userIds in
    project ← projectModel_findByIdAndUpdate id (fun doc =>
      {| project_name := project_name doc;
         project_key := project_key doc;
         project_members := addToSet (project_members doc) memberIds;
         project_createdBy := project_createdBy doc;
         project_createdAt := project_createdAt doc;
         project_updatedAt := now |});
    match project with
    | None => throw (NotFoundException "Project not found")
    | Some project => query (fun db => populateProject db id project)
    end.

Definition create (newId : ObjectId) (now : Date)
    (createProjectDto : CreateProjectDto) (userId : string) : Async (string * Project) :=
  let memberIds := default [] (newProject_members createProjectDto) in
  let project :=
    {| project_name := newProject_name createProjectDto;
       project_key := newProject_key createProjectDto;
       project_members := memberIds;
       project_createdBy := userId;
       project_createdAt := now;
       project_updatedAt := now |} in
  projectModel_save newId project.

Definition findAll (userId : string) (userRole : UserRole)
  : Async (list PopulatedProject) :=
  if UserRole_eqb userRole ADMIN
  then query (fun db =>
         (fun doc => populateProject db doc.1 doc.2) <$> map_to_list (projects db))
  else
    (* find({ assignee }).distinct('projectId') *)
    tasksWithUser ← query (fun db =>
      remove_dups ((fun doc => projectId doc.2) <$> find textMatches [assignee_eq userId] db));
    query (fun db =>
      (fun doc => populateProject db doc.1 doc.2)
      <$> List.filter
            (fun doc => isMemberOf (project_members doc.2) userId
                        || isMemberOf tasksWithUser doc.1)
            (map_to_list (projects db))).

Definition update (now : Date) (id : string) (updateProjectDto : UpdateProjectDto)
    (userRole : UserRole) : Async PopulatedProject :=
  if negb (UserRole_eqb userRole ADMIN)
  then throw (ForbiddenException "Only admins can update projects")
  else
    project ← projectModel_findByIdAndUpdate_key id (fun doc =>
      {| project_name := default (project_name doc) (changed_name updateProjectDto);
         project_key := default (project_key doc) (changed_key updateProjectDto);
         project_members :=
           if changed_members updateProjectDto is Some members then members
           else project_members doc;
         project_createdBy := project_createdBy doc;
         project_createdAt := project_createdAt doc;
         project_updatedAt := now |});
    match project with
    | None => throw (NotFoundException "Project not found")
    | Some project => query (fun db => populateProject db id project)
    end.

(** [$pull: { members: { $in: memberIds } }] *)
Definition pull (members memberIds : list ObjectId) : list ObjectId :=
  List.filter (fun member => negb (isMemberOf memberIds member)) members.

Definition removeMembers (now : Date) (id : string) (userIds : list string)
    (userRole : UserRole) : Async PopulatedProject :=
  if negb (UserRole_eqb userRole ADMIN)
  then throw (ForbiddenException "Only admins can remove project members")
  else
    let memberIds := userIds in
    project ← projectModel_findByIdAndUpdate id (fun doc =>
      {| project_name := project_name doc;
         project_key := project_key doc;
         project_members := pull (project_members doc) memberIds;
         project_createdBy := project_createdBy doc;
         project_createdAt := project_createdAt doc;
         project_updatedAt := now |});
    match project with
    | None => throw (NotFoundException "Project not found")
    | Some project => query (fun db => populateProject db id project)
    end.

End ProjectsService.
End ProjectsService.

(** * Vocabulary of the properties *)

(** The promise is rejected with 403 and the database is as it was. *)
Definition denied {A} (db : Db) (r : Db * Outcome A) : Prop :=
  rejectedWith r 403 = true /\ r.1 = db.

Definition notDenied {A} (r : Db * Outcome A) : Prop :=
  rejectedWith r 403 = false.

(** The caller is the assignee of at least one task of the project. *)
Definition hasTaskIn (db : Db) (projectId_ userId : string) : Prop :=
  exists id t,
    tasks db !! id = Some t /\ projectId t = projectId_ /\ assignee t = Some userId.

(** The rule of the project-level operations. *)
Definition mayAccess (db : Db) (projectId_ : string) (p : Project)
    (userId : string) (userRole : UserRole) : Prop :=
  userRole = ADMIN \/ userId ∈ project_members p \/ hasTaskIn db projectId_ userId.

(** The rule of the single-task read, the update and the dashboard. *)
Definition adminOrMember (p : Project) (userId : string) (userRole : UserRole) : Prop :=
  userRole = ADMIN \/ userId ∈ project_members p.

(** An operation that passes its access check exactly under [cond], and
    is refused with 403, the database untouched, otherwise. *)
Definition gatedBy {A} (cond : Prop) (db : Db) (r : Db * Outcome A) : Prop :=
  (cond -> notDenied r) /\ (~ cond -> denied db r).

(** The promise is rejected with 404 and the database is as it was. *)
Definition notFound {A} (db : Db) (r : Db * Outcome A) : Prop :=
  rejectedWith r 404 = true /\ r.1 = db.

(** The tasks a list request asks for, read off the query parameters: the
    tasks of the project that have the requested status, assignee and
    priority, are due within the requested dates and match the search
    text; a parameter that is absent or empty asks for nothing. *)
Definition selects (textMatches : string -> Task -> bool) (Date_parse : string -> Date)
    (projectId_ : string) (q : QueryTasksDto) (t : Task) : bool :=
  String.eqb (projectId t) projectId_
  && match query_status q with
     | Some s => TaskStatus_eqb (status t) s
     | None => true
     end
  && match query_assignee q with
     | Some (String c r) =>
         match assignee t with Some a => String.eqb a (String c r) | None => false end
     | _ => true
     end
  && match query_priority q with
     | Some pr => TaskPriority_eqb (priority t) pr
     | None => true
     end
  && match query_dueFrom q with
     | Some (String c r) =>
         match dueDate t with Some d => Date_parse (String c r) <=? d | None => false end
     | _ => true
     end
  && match query_dueTo q with
     | Some (String c r) =>
         match dueDate t with Some d => d <=? Date_parse (String c r) | None => false end
     | _ => true
     end
  && match query_q q with
     | Some (String c r) => textMatches (String c r) t
     | _ => true
     end.

(** [Math.ceil] of a double, as an integer. *)
Definition Number_ceil (x : Number) : option Z :=
  match x with
  | S754_zero _ => Some 0
  | S754_finite s m e =>
      let v := if s then Z.neg m else Z.pos m in
      Some (if 0 <=? e then v * 2 ^ e else - ((- v) / 2 ^ (- e)))
  | _ => None
  end.

(** The documents of the tasks of a project, and their number. *)
Definition projectTasks (db : Db) (projectId_ : string) : list (string * Task) :=
  List.filter (fun doc => String.eqb (projectId doc.2) projectId_) (map_to_list (tasks db)).

Definition taskCount (db : Db) (projectId_ : string) : nat :=
  length (projectTasks db projectId_).

(** [s.split('\n')] *)
Fixpoint lines (s : string) : list string :=
  match s with
  | EmptyString => [EmptyString]
  | String c r =>
      if Ascii.eqb c "010" then EmptyString :: lines r
      else match lines r with
           | l :: ls => String c l :: ls
           | [] => [String c EmptyString]
           end
  end.

Fixpoint noLineFeed (s : string) : bool :=
  match s with
  | EmptyString => true
  | String c r => negb (Ascii.eqb c "010") && noLineFeed r
  end.

Definition quoted (s : string) : string := DQ +:+ s +:+ DQ.

(** The eleven columns of a row, in the order of the header. *)
Definition columns (row : CsvRow) : list string :=
  [row_id row; row_title row; row_description row; row_status row; row_priority row;
   row_assignee row; row_assigneeEmail row; row_dueDate row; row_createdBy row;
   row_createdAt row; row_updatedAt row].

(** The row that stands for a task: its fields, and the empty string for
    a description, an assignee, an assignee email or a due date that is
    missing. *)
Definition describes (toISOString : Date -> string) (task : PopulatedTask)
    (row : CsvRow) : Prop :=
  row_id row = pt_id task /\
  row_title row = title (pt_task task) /\
  row_description row = default EmptyString (description (pt_task task)) /\
  row_status row = TaskStatus_value (status (pt_task task)) /\
  row_priority row = TaskPriority_value (priority (pt_task task)) /\
  row_assignee row = default EmptyString (ref_name <$> pt_assignee task) /\
  row_assigneeEmail row = default EmptyString (ref_email <$> pt_assignee task) /\
  row_dueDate row = default EmptyString (toISOString <$> dueDate (pt_task task)) /\
  Some (row_createdBy row) = ref_name <$> pt_createdBy task /\
  row_createdAt row = toISOString (createdAt (pt_task task)) /\
  row_updatedAt row = toISOString (updatedAt (pt_task task)).

(** The number of tasks of a project that satisfy a condition. *)
Definition countWhere (db : Db) (projectId_ : string) (cond : Task -> bool) : Z :=
  Z.of_nat (length (List.filter (fun doc => cond doc.2) (projectTasks db projectId_))).

Definition isOverdue (now : Date) (t : Task) : bool :=
  match dueDate t with Some d => d <? now | None => false end
  && negb (TaskStatus_eqb (status t) DONE).

(** The completion rate as the service computes it, in doubles: the
    quotient first, then the product by 100, then [Math.round]. *)
Definition rateOf (done_ total_ : Z) : Number :=
  Math_round (Number_mul (Number_div (Number_of_Z done_) (Number_of_Z total_))
                         (Number_of_Z 100)).

(** [n / d] rounded to the nearest integer, a half going up. *)
Definition round_half_up (n d : Z) : Z := (2 * n + d) / (2 * d).

(** The rate is an integer from 0 to 100 nearest to 100 * done / total,
    and it is the half-up rounding unless that quotient is exactly
    halfway between two integers. *)
Definition rateAccurate (done_ total_ : Z) : bool :=
  match Number_to_Z (rateOf done_ total_) with
  | Some rate =>
      (0 <=? rate) && (rate <=? 100)
      && (2 * Z.abs (rate * total_ - 100 * done_) <=? total_)
      && (((200 * done_) mod (2 * total_) =? total_)
          || (rate =? round_half_up (100 * done_) total_))
  | None => false
  end.

(** * Sample data *)

Module Sample.

Definition textMatches (q : string) (t : Task) : bool := String.eqb q (title t).
Definition Date_parse (s : string) : Date := orElse (parseInt (Some s)) 0.
Definition toISOString (d : Date) : string := "2025-01-01T00:00:00.000Z".

Definition user (name : string) (role : UserRole) : User :=
  {| user_name := name; user_email := name +:+ "@example.com";
     user_passwordHash := "$2b$10$hash"; user_role := role |}.

Definition task (project : string) (who : option string) (st : TaskStatus)
    (created : Date) : Task :=
  {| projectId := project; title := "Task"; description := None;
     status := st; priority := MEDIUM; assignee := who; dueDate := None;
     createdBy := "a1"; createdAt := created; updatedAt := created |}.

Definition alpha : Project :=
  {| project_name := "Project  Alpha"; project_key := "ALPHA";
     project_members := ["u1"]; project_createdBy := "a1";
     project_createdAt := 0; project_updatedAt := 0 |}.

(** Ann is a member of the project, Bob is only the assignee of one of its
    tasks, Eve has nothing to do with it. *)
Definition db : Db :=
  {| users := {[ "a1" := user "Admin" ADMIN; "u1" := user "Ann" MEMBER;
                 "u2" := user "Bob" MEMBER; "u3" := user "Eve" MEMBER ]};
     projects := {[ "p1" := alpha ]};
     tasks := {[ "t1" := task "p1" (Some "u2") TODO 1;
                 "t2" := task "p1" (Some "u1") DONE 2;
                 "t3" := task "p1" None IN_PROGRESS 3 ]} |}.

Definition createDto : CreateTaskDto :=
  {| create_title := "New"; create_description := None; create_status := None;
     create_priority := None; create_assignee := None; create_dueDate := None |}.

Definition updateDto : UpdateTaskDto :=
  {| update_title := Some "Renamed"; update_description := None;
     update_status := Some IN_PROGRESS; update_priority := None;
     update_assignee := None; update_dueDate := None |}.

Definition queryDto (page limit : option string) : QueryTasksDto :=
  {| query_status := None; query_assignee := None; query_q := None;
     query_priority := None; query_dueFrom := None; query_dueTo := None;
     query_page := page; query_limit := limit |}.

Definition res : Response := {| headers := ∅; body := None |}.

End Sample.

Module Busy.

(** A project of forty tasks, the first twenty-three of them done. *)
Definition taskId (i : nat) : string := String (ascii_of_nat (48 + i)) "t".

Definition db : Db :=
  {| users := users Sample.db;
     projects := {[ "p2" := Sample.alpha ]};
     tasks := list_to_map
                ((fun i => (taskId i,
                            Sample.task "p2" None (if (i <? 23)%nat then DONE else TODO)
                                        (Z.of_nat i)))
                 <$> seq 0 40) |}.

End Busy.

(** * Properties *)

Lemma UserRole_eqb_eq a b : UserRole_eqb a b = true <-> a = b.
Proof. destruct a, b; simpl; split; congruence. Qed.

Lemma TaskStatus_eqb_eq a b : TaskStatus_eqb a b = true <-> a = b.
Proof. destruct a, b; simpl; split; congruence. Qed.

Lemma TaskPriority_eqb_eq a b : TaskPriority_eqb a b = true <-> a = b.
Proof. destruct a, b; simpl; split; congruence. Qed.


(** ** Running the promise monad *)

Lemma bind_resolved {A B} (m : Async A) (k : A -> Async B) db db' a :
  m db = (db', Resolved a) -> (m ≫= k) db = k a db'.
Proof. intros H. unfold mbind, Async_bind. by rewrite H. Qed.

Lemma bind_rejected {A B} (m : Async A) (k : A -> Async B) db db' e :
  m db = (db', Rejected e) -> (m ≫= k) db = (db', Rejected e).
Proof. intros H. unfold mbind, Async_bind. by rewrite H. Qed.

Lemma bind_query {A B} (f : Db -> A) (k : A -> Async B) db :
  (query f ≫= k) db = k (f db) db.
Proof. reflexivity. Qed.

(** ** Reading the tasks collection *)

Section Collection.

Variable textMatches : string -> Task -> bool.

Lemma elem_of_find (f : Filter) (db : Db) (doc : TaskDocument) :
  doc ∈ find textMatches f db <->
  tasks db !! doc.1 = Some doc.2 /\ matches textMatches f doc = true.
Proof.
  unfold find. rewrite list_elem_of_In, filter_In, <- list_elem_of_In.
  destruct doc as [id t]. by rewrite elem_of_map_to_list.
Qed.

Lemma exists_assigned (db : Db) (projectId_ userId : string) :
  exists b,
    exists_ textMatches [projectId_eq projectId_; assignee_eq userId] db = (db, Resolved b)
    /\ (b = true <-> hasTaskIn db projectId_ userId).
Proof.
  unfold exists_, query.
  destruct (find textMatches _ db) as [|doc l] eqn:E; eexists; (split; [reflexivity|]).
  - split; [done|]. intros (id & t & Ht & Hp & Ha).
    assert (H : (id, t) ∈ find textMatches [projectId_eq projectId_; assignee_eq userId] db).
    { apply elem_of_find. split; [done|]. simpl. rewrite Hp, Ha.
      by rewrite !String.eqb_refl. }
    rewrite E in H. by apply elem_of_nil in H.
  - split; [|done]. intros _.
    assert (H : doc ∈ find textMatches [projectId_eq projectId_; assignee_eq userId] db)
      by (rewrite E; left).
    apply elem_of_find in H as [Ht Hm]. destruct doc as [id t]. simpl in *.
    exists id, t. split; [done|].
    apply andb_prop in Hm as [Hp Hm]. apply andb_prop in Hm as [Ha _].
    apply String.eqb_eq in Hp.
    destruct (assignee t) as [a|]; [|done]. apply String.eqb_eq in Ha. by subst.
Qed.

End Collection.

Lemma isMemberOf_elem_of (members : list string) (userId : string) :
  isMemberOf members userId = true <-> userId ∈ members.
Proof.
  unfold isMemberOf. rewrite existsb_exists. split.
  - intros (x & Hx & Heq). apply String.eqb_eq in Heq. subst. by apply list_elem_of_In.
  - intros H. exists userId. split; [by apply list_elem_of_In | apply String.eqb_refl].
Qed.

(** ** Who may use a project *)

Section Access.

Variable textMatches : string -> Task -> bool.

(** The block every project-level method of the tasks service starts with. *)
Lemma access_block (db : Db) (projectId_ : string) (p : Project)
    (userId : string) (userRole : UserRole) :
  let block : Async unit :=
    if negb (UserRole_eqb userRole ADMIN) then
      let isMember := isMemberOf (project_members p) userId in
      hasTasksInProject ← exists_ textMatches [projectId_eq projectId_; assignee_eq userId];
      if negb isMember && negb hasTasksInProject
      then throw (ForbiddenException "Access denied to this project")
      else mret tt
    else mret tt in
  (mayAccess db projectId_ p userId userRole -> block db = (db, Resolved tt)) /\
  (~ mayAccess db projectId_ p userId userRole ->
     block db = (db, Rejected (ForbiddenException "Access denied to this project"))).
Proof.
  intros block. subst block. unfold mayAccess.
  destruct userRole; simpl.
  { split; [done|]. intros H. destruct H. by left. }
  destruct (exists_assigned textMatches db projectId_ userId) as (b & Hb & Hiff).
  erewrite bind_resolved by exact Hb.
  pose proof (isMemberOf_elem_of (project_members p) userId) as Hm.
  destruct (isMemberOf (project_members p) userId); destruct b; simpl; split;
    try (intros _; reflexivity).
  - intros Hn. destruct Hn. right; left. by apply Hm.
  - intros Hn. destruct Hn. right; left. by apply Hm.
  - intros Hn. destruct Hn. right; right. by apply Hiff.
  - intros [H|[H|H]]; [done | apply Hm in H; done | apply Hiff in H; done].
Qed.

End Access.

Section ProjectLevel.

Variable textMatches : string -> Task -> bool.
Variable Date_parse : string -> Date.
Variable toISOString : Date -> string.

Variables (db : Db) (projectId_ : string) (p : Project).
Hypothesis project_exists : projects db !! projectId_ = Some p.

Variables (userId : string) (userRole : UserRole).

Local Abbreviation allowed := (mayAccess db projectId_ p userId userRole).

Local Ltac enter op :=
  unfold op, projectModel_findById; erewrite bind_query; rewrite project_exists;
  pose proof (access_block textMatches db projectId_ p userId userRole) as [Hyes Hno];
  simpl in Hyes, Hno.

Lemma create_refused newId now dto :
  ~ allowed ->
  TasksService.create textMatches Date_parse newId now projectId_ dto userId userRole db
  = (db, Rejected (ForbiddenException "Access denied to this project")).
Proof. intros Hn. enter @TasksService.create. by erewrite bind_rejected by exact (Hno Hn). Qed.

Lemma create_admitted newId now dto :
  allowed ->
  notDenied (TasksService.create textMatches Date_parse newId now projectId_ dto userId userRole db).
Proof.
  intros Hy. enter @TasksService.create. erewrite bind_resolved by exact (Hyes Hy).
  unfold notDenied, rejectedWith, mbind, Async_bind, taskModel_save.
  by destruct (tasks db !! newId).
Qed.

Lemma findAll_refused q :
  ~ allowed ->
  TasksService.findAll textMatches Date_parse projectId_ q userId userRole db
  = (db, Rejected (ForbiddenException "Access denied to this project")).
Proof. intros Hn. enter @TasksService.findAll. by erewrite bind_rejected by exact (Hno Hn). Qed.

Lemma findAll_admitted q :
  allowed ->
  notDenied (TasksService.findAll textMatches Date_parse projectId_ q userId userRole db).
Proof.
  intros Hy. enter @TasksService.findAll. erewrite bind_resolved by exact (Hyes Hy).
  unfold notDenied, rejectedWith, mbind, Async_bind.
  by destruct (skip _ _).
Qed.

Lemma exportToCsv_refused now res :
  ~ allowed ->
  TasksService.exportToCsv textMatches toISOString now projectId_ res userId userRole db
  = (db, Rejected (ForbiddenException "Access denied to this project")).
Proof. intros Hn. enter @TasksService.exportToCsv. by erewrite bind_rejected by exact (Hno Hn). Qed.

Lemma exportToCsv_admitted now res :
  allowed ->
  notDenied (TasksService.exportToCsv textMatches toISOString now projectId_ res userId userRole db).
Proof.
  intros Hy. enter @TasksService.exportToCsv. erewrite bind_resolved by exact (Hyes Hy).
  erewrite bind_query. unfold notDenied, rejectedWith.
  by destruct (mapM _ _).
Qed.

End ProjectLevel.

(** Membership as [ProjectsService.findOne] reads it, on the populated
    member list: a caller whose user document exists is found there
    exactly when its id is in [members]. *)
Lemma populated_member (db : Db) (members : list string) (userId : string) :
  is_Some (users db !! userId) ->
  existsb (fun member => String.eqb (ref_id member) userId)
          (omap (populateUser db) members) = true
  <-> userId ∈ members.
Proof.
  intros [u Hu]. rewrite existsb_exists. split.
  - intros (r & Hr & Heq). apply String.eqb_eq in Heq.
    apply list_elem_of_In, list_elem_of_omap in Hr as (id & Hid & Hpop).
    unfold populateUser in Hpop. destruct (users db !! id); [|done].
    injection Hpop as <-. simpl in Heq. by subst.
  - intros Hin.
    exists {| ref_id := userId; ref_name := user_name u; ref_email := user_email u |}.
    split; [|apply String.eqb_refl].
    apply list_elem_of_In, list_elem_of_omap. exists userId. split; [done|].
    unfold populateUser. by rewrite Hu.
Qed.

Section ProjectView.

Variable textMatches : string -> Task -> bool.
Variables (db : Db) (projectId_ : string) (p : Project).
Hypothesis project_exists : projects db !! projectId_ = Some p.
Variables (userId : string) (userRole : UserRole).
Hypothesis authenticated : is_Some (users db !! userId).

Lemma project_findOne_refused :
  ~ mayAccess db projectId_ p userId userRole ->
  ProjectsService.findOne textMatches projectId_ userId userRole db
  = (db, Rejected (ForbiddenException "Access denied to this project")).
Proof.
  intros Hn. unfold ProjectsService.findOne. erewrite bind_query.
  rewrite project_exists. simpl.
  destruct userRole; simpl.
  { destruct Hn. by left. }
  destruct (exists_assigned textMatches db projectId_ userId) as (b & Hb & Hiff).
  unfold mbind at 1. unfold Async_bind. erewrite bind_resolved by exact Hb.
  pose proof (populated_member db (project_members p) userId authenticated) as Hm.
  destruct (existsb _ _).
  { destruct Hn. right; left. by apply Hm. }
  destruct b; [|done].
  destruct Hn. right; right. by apply Hiff.
Qed.

Lemma project_findOne_admitted :
  mayAccess db projectId_ p userId userRole ->
  ProjectsService.findOne textMatches projectId_ userId userRole db
  = (db, Resolved (ProjectsService.populateProject db projectId_ p)).
Proof.
  intros Hy. unfold ProjectsService.findOne. erewrite bind_query.
  rewrite project_exists. simpl.
  destruct userRole; simpl; [done|].
  destruct (exists_assigned textMatches db projectId_ userId) as (b & Hb & Hiff).
  unfold mbind at 1. unfold Async_bind. erewrite bind_resolved by exact Hb.
  pose proof (populated_member db (project_members p) userId authenticated) as Hm.
  destruct (existsb _ _); [done|].
  destruct b; [done|].
  destruct Hy as [H|[H|H]]; [done | apply Hm in H; done | apply Hiff in H; done].
Qed.

End ProjectView.

Section TaskLevel.

Variable textMatches : string -> Task -> bool.
Variables (db : Db) (projectId_ : string) (p : Project).
Hypothesis project_exists : projects db !! projectId_ = Some p.
Variables (userId : string) (userRole : UserRole).

Lemma task_findOne_refused id t :
  tasks db !! id = Some t -> projectId t = projectId_ ->
  ~ adminOrMember p userId userRole ->
  TasksService.findOne id userId userRole db
  = (db, Rejected (ForbiddenException "Access denied to this task")).
Proof.
  intros Ht Hp Hn. unfold TasksService.findOne, taskModel_findById, projectModel_findById.
  erewrite bind_query. rewrite Ht. erewrite bind_query. rewrite Hp, project_exists.
  destruct userRole; simpl.
  { destruct Hn. by left. }
  pose proof (isMemberOf_elem_of (project_members p) userId) as Hm.
  destruct (isMemberOf _ _); [|done].
  destruct Hn. right. by apply Hm.
Qed.

Lemma task_findOne_admitted id t :
  tasks db !! id = Some t -> projectId t = projectId_ ->
  adminOrMember p userId userRole ->
  TasksService.findOne id userId userRole db = (db, Resolved (populate db (id, t))).
Proof.
  intros Ht Hp Hy. unfold TasksService.findOne, taskModel_findById, projectModel_findById.
  erewrite bind_query. rewrite Ht. erewrite bind_query. rewrite Hp, project_exists.
  destruct userRole; simpl; [done|].
  pose proof (isMemberOf_elem_of (project_members p) userId) as Hm.
  destruct (isMemberOf _ _); [done|].
  destruct Hy as [H|H]; [done | apply Hm in H; done].
Qed.

Lemma getProjectSummary_refused now :
  ~ adminOrMember p userId userRole ->
  TasksService.getProjectSummary textMatches now projectId_ userId userRole db
  = (db, Rejected (ForbiddenException "Access denied to this project dashboard")).
Proof.
  intros Hn. unfold TasksService.getProjectSummary, projectModel_findById.
  erewrite bind_query. rewrite project_exists.
  destruct userRole; simpl.
  { destruct Hn. by left. }
  pose proof (isMemberOf_elem_of (project_members p) userId) as Hm.
  destruct (isMemberOf _ _); [|done].
  destruct Hn. right. by apply Hm.
Qed.

Lemma getProjectSummary_admitted now :
  adminOrMember p userId userRole ->
  exists s, TasksService.getProjectSummary textMatches now projectId_ userId userRole db
            = (db, Resolved s).
Proof.
  intros Hy. unfold TasksService.getProjectSummary, projectModel_findById.
  erewrite bind_query. rewrite project_exists.
  destruct userRole; simpl; [by eexists|].
  pose proof (isMemberOf_elem_of (project_members p) userId) as Hm.
  destruct (isMemberOf _ _); [by eexists|].
  destruct Hy as [H|H]; [done | apply Hm in H; done].
Qed.

End TaskLevel.

Lemma gatedBy_intro {A} (cond : Prop) (db : Db) (r : Db * Outcome A) (message : string) :
  (cond -> notDenied r) ->
  (~ cond -> r = (db, Rejected (ForbiddenException message))) ->
  gatedBy cond db r.
Proof.
  intros Hyes Hno. split; [exact Hyes|].
  intros Hn. rewrite (Hno Hn). by split.
Qed.




(** ** Updating a task *)

Section Update.

Variable Date_parse : string -> Date.

Variables (db : Db) (id : string) (t : Task).
Hypothesis task_exists : tasks db !! id = Some t.

Variables (now : Date) (dto : UpdateTaskDto) (userId : string).

Local Ltac enter :=
  unfold TasksService.update, taskModel_findById, projectModel_findById;
  erewrite bind_query; rewrite task_exists; erewrite bind_query.

(** What a resolved update has done. *)
Lemma update_resolved_inv (userRole : UserRole) db' r :
  TasksService.update Date_parse now id dto userId userRole db = (db', Resolved r) ->
  (userRole = ADMIN \/
   exists p, projects db !! projectId t = Some p /\ userId ∈ project_members p
             /\ assignee t = Some userId) /\
  users db' = users db /\ projects db' = projects db /\
  (forall other, other <> id -> tasks db' !! other = tasks db !! other) /\
  exists t',
    tasks db' !! id = Some t' /\ r = Some (populate db' (id, t')) /\
    assignee t' = (if truthy (update_assignee dto) then update_assignee dto else assignee t) /\
    dueDate t' = (if truthy (update_dueDate dto)
                  then Date_parse <$> update_dueDate dto else dueDate t).
Proof.
  enter. intros H.
  assert (Hgate : userRole = ADMIN \/
     exists p, projects db !! projectId t = Some p /\ userId ∈ project_members p
               /\ assignee t = Some userId).
  { destruct userRole; [by left|right]. simpl in H.
    destruct (projects db !! projectId t) as [p|]; [|done].
    exists p. split; [done|].
    pose proof (isMemberOf_elem_of (project_members p) userId) as Hm.
    destruct (isMemberOf _ _); [|done]. split; [by apply Hm|].
    simpl in H. by case_bool_decide. }
  split; [exact Hgate|].
  assert (Hrun : forall (k : unit -> Async (option PopulatedTask)),
    ((if negb (UserRole_eqb userRole ADMIN)
      then match projects db !! projectId t with
           | Some project =>
               if negb (isMemberOf (project_members project) userId)
               then throw (ForbiddenException "Access denied to this project")
               else if negb (bool_decide (assignee t = Some userId))
                    then throw (ForbiddenException "You can only update tasks assigned to you")
                    else mret tt
           | None => throw InternalServerError
           end
      else mret tt) ≫= k) db = k tt db).
  { intros k. destruct Hgate as [-> | (p & Hp & Hin & Ha)]; [done|].
    destruct userRole; [done|]. simpl. rewrite Hp.
    apply isMemberOf_elem_of in Hin. rewrite Hin. simpl.
    by rewrite bool_decide_true. }
  rewrite Hrun in H. clear Hrun.
  unfold mbind, Async_bind, taskModel_findByIdAndUpdate, query in H. simpl in H.
  rewrite task_exists in H. simpl in H.
  injection H as <- <-. simpl.
  split; [done|]. split; [done|].
  split. { intros other Hne. by rewrite lookup_alter_ne. }
  eexists. split. { rewrite lookup_alter_eq, task_exists. reflexivity. }
  split; [reflexivity|]. simpl.
  split.
  - destruct (update_assignee dto) as [[|c s]|]; simpl; by destruct (assignee t).
  - destruct (update_dueDate dto) as [[|c s]|]; simpl; by destruct (dueDate t).
Qed.

(** An admin's update of an existing task resolves. *)
Lemma update_admin_resolves :
  exists db' r, TasksService.update Date_parse now id dto userId ADMIN db = (db', Resolved r).
Proof.
  enter. simpl.
  unfold mbind, Async_bind, taskModel_findByIdAndUpdate, query. simpl.
  by eexists _, _.
Qed.

(** So does the update of a member of the project who is the assignee. *)
Lemma update_assignee_resolves p :
  projects db !! projectId t = Some p -> userId ∈ project_members p ->
  assignee t = Some userId ->
  exists db' r, TasksService.update Date_parse now id dto userId MEMBER db = (db', Resolved r).
Proof.
  intros Hp Hin Ha. enter. simpl. rewrite Hp.
  apply isMemberOf_elem_of in Hin. rewrite Hin. simpl.
  rewrite bool_decide_true by done.
  unfold mbind, Async_bind, taskModel_findByIdAndUpdate, query. simpl.
  by eexists _, _.
Qed.

(** A member of the project who is not the assignee is refused. *)
Lemma update_not_assignee p :
  projects db !! projectId t = Some p -> userId ∈ project_members p ->
  assignee t <> Some userId ->
  TasksService.update Date_parse now id dto userId MEMBER db
  = (db, Rejected (ForbiddenException "You can only update tasks assigned to you")).
Proof.
  intros Hp Hin Ha. enter. simpl. rewrite Hp.
  apply isMemberOf_elem_of in Hin. rewrite Hin. simpl.
  by rewrite bool_decide_false.
Qed.

End Update.

(** C2. A member's update of an existing task resolves only if the member
    is the task's assignee; a member of the task's project who is not the
    assignee is refused with 403 and the task is unchanged; an admin's
    update of any existing task resolves. *)
Theorem member_updates_only_own_task
    (Date_parse : string -> Date) (db : Db) (id : string) (t : Task)
    (now : Date) (dto : UpdateTaskDto) (userId : string) :
  tasks db !! id = Some t ->
  (forall db' r,
     TasksService.update Date_parse now id dto userId MEMBER db = (db', Resolved r) ->
     assignee t = Some userId) /\
  (forall p,
     projects db !! projectId t = Some p -> userId ∈ project_members p ->
     assignee t <> Some userId ->
     denied db (TasksService.update Date_parse now id dto userId MEMBER db) /\
     tasks (TasksService.update Date_parse now id dto userId MEMBER db).1 !! id = Some t) /\
  (exists db' r,
     TasksService.update Date_parse now id dto userId ADMIN db = (db', Resolved r)).
Proof.
  intros Ht. split; [|split].
  - intros db' r H.
    destruct (update_resolved_inv Date_parse db id t Ht now dto userId MEMBER db' r H)
      as [[Hadmin | (p & _ & _ & Ha)] _]; [done | exact Ha].
  - intros p Hp Hin Hne.
    rewrite (update_not_assignee Date_parse db id t Ht now dto userId p Hp Hin Hne).
    by repeat split.
  - exact (update_admin_resolves Date_parse db id t Ht now dto userId).
Qed.

(** C2 at the sample database: Ann, a member of the project, on task t1,
    which is assigned to Bob. *)
Lemma member_updates_only_own_task_witness :
  tasks Sample.db !! "t1" = Some (Sample.task "p1" (Some "u2") TODO 1) /\
  denied Sample.db
    (TasksService.update Sample.Date_parse 10 "t1" Sample.updateDto "u1" MEMBER Sample.db) /\
  (exists db' r,
     TasksService.update Sample.Date_parse 10 "t1" Sample.updateDto "u1" ADMIN Sample.db
     = (db', Resolved r)).
Proof.
  assert (Ht : tasks Sample.db !! "t1" = Some (Sample.task "p1" (Some "u2") TODO 1))
    by reflexivity.
  destruct (member_updates_only_own_task Sample.Date_parse Sample.db "t1" _ 10
              Sample.updateDto "u1" Ht) as (_ & Hmember & Hadmin).
  split; [exact Ht|]. split; [|exact Hadmin].
  apply (Hmember Sample.alpha); [reflexivity | | discriminate].
  apply list_elem_of_In. simpl. by left.
Defined.

(** C10. After an update that resolves, a request without an assignee (or
    with an empty one) leaves the stored assignee as it was, and likewise
    for the due date; an assignee or a due date that was set is still set. *)
Theorem update_keeps_unset_fields
    (Date_parse : string -> Date) (db : Db) (id : string) (t : Task)
    (now : Date) (dto : UpdateTaskDto) (userId : string) (userRole : UserRole)
    (db' : Db) (r : option PopulatedTask) :
  tasks db !! id = Some t ->
  TasksService.update Date_parse now id dto userId userRole db = (db', Resolved r) ->
  exists t',
    tasks db' !! id = Some t' /\
    (truthy (update_assignee dto) = false -> assignee t' = assignee t) /\
    (truthy (update_dueDate dto) = false -> dueDate t' = dueDate t) /\
    (is_Some (assignee t) -> is_Some (assignee t')) /\
    (is_Some (dueDate t) -> is_Some (dueDate t')).
Proof.
  intros Ht H.
  destruct (update_resolved_inv Date_parse db id t Ht now dto userId userRole db' r H)
    as (_ & _ & _ & _ & t' & Ht' & _ & Ha & Hd).
  exists t'. split; [exact Ht'|]. rewrite Ha, Hd. repeat split.
  - by intros ->.
  - by intros ->.
  - intros Hs. destruct (update_assignee dto) as [[|c s]|]; simpl; by eauto.
  - intros Hs. destruct (update_dueDate dto) as [[|c s]|]; simpl; by eauto.
Qed.

(** C10 at the sample database: an admin renames task t1 and sends no
    assignee; Bob is still its assignee. *)
Lemma update_keeps_unset_fields_witness :
  exists t',
    tasks (TasksService.update Sample.Date_parse 10 "t1" Sample.updateDto "a1" ADMIN
             Sample.db).1 !! "t1" = Some t' /\
    assignee t' = Some "u2" /\ dueDate t' = None.
Proof.
  pose (run := TasksService.update Sample.Date_parse 10 "t1" Sample.updateDto "a1" ADMIN
                 Sample.db).
  destruct (update_keeps_unset_fields Sample.Date_parse Sample.db "t1"
              (Sample.task "p1" (Some "u2") TODO 1) 10 Sample.updateDto "a1" ADMIN
              run.1 (match run.2 with Resolved r => r | Rejected _ => None end))
    as (t' & Ht' & Ha & Hd & _); [reflexivity | reflexivity |].
  exists t'. split; [exact Ht'|]. split; [by apply Ha | by apply Hd].
Defined.

(** ** The admin-only operations *)

Lemma task_remove_not_admin (db : Db) (id : string) (userRole : UserRole) :
  userRole <> ADMIN ->
  TasksService.remove id userRole db
  = (db, Rejected (ForbiddenException "Only admins can delete tasks")).
Proof. by destruct userRole. Qed.

Lemma task_remove_admin (db : Db) (id : string) (t : Task) :
  tasks db !! id = Some t ->
  TasksService.remove id ADMIN db
  = ({| users := users db; projects := projects db; tasks := delete id (tasks db) |},
     Resolved tt).
Proof.
  intros Ht. unfold TasksService.remove, taskModel_findByIdAndDelete. simpl.
  unfold mbind, Async_bind. by rewrite Ht.
Qed.

Lemma task_remove_admin_missing (db : Db) (id : string) :
  tasks db !! id = None ->
  TasksService.remove id ADMIN db = (db, Rejected (NotFoundException "Task not found")).
Proof.
  intros Ht. unfold TasksService.remove, taskModel_findByIdAndDelete. simpl.
  unfold mbind, Async_bind. rewrite Ht, (delete_id _ _ Ht). by destruct db.
Qed.

Lemma project_remove_not_admin (db : Db) (id : string) (userRole : UserRole) :
  userRole <> ADMIN ->
  ProjectsService.remove id userRole db
  = (db, Rejected (ForbiddenException "Only admins can delete projects")).
Proof. by destruct userRole. Qed.

Lemma project_remove_admin (db : Db) (id : string) (p : Project) :
  projects db !! id = Some p ->
  ProjectsService.remove id ADMIN db
  = ({| users := users db; projects := delete id (projects db); tasks := tasks db |},
     Resolved tt).
Proof.
  intros Hp. unfold ProjectsService.remove, projectModel_findByIdAndDelete. simpl.
  unfold mbind, Async_bind. by rewrite Hp.
Qed.

Lemma project_remove_admin_missing (db : Db) (id : string) :
  projects db !! id = None ->
  ProjectsService.remove id ADMIN db
  = (db, Rejected (NotFoundException "Project not found")).
Proof.
  intros Hp. unfold ProjectsService.remove, projectModel_findByIdAndDelete. simpl.
  unfold mbind, Async_bind. rewrite Hp, (delete_id _ _ Hp). by destruct db.
Qed.

Lemma addMembers_not_admin (db : Db) (now : Date) (id : string) (userIds : list string)
    (userRole : UserRole) :
  userRole <> ADMIN ->
  ProjectsService.addMembers now id userIds userRole db
  = (db, Rejected (ForbiddenException "Only admins can add project members")).
Proof. by destruct userRole. Qed.

Lemma addMembers_admin (db : Db) (now : Date) (id : string) (userIds : list string)
    (p : Project) :
  projects db !! id = Some p ->
  exists db' p',
    ProjectsService.addMembers now id userIds ADMIN db
    = (db', Resolved (ProjectsService.populateProject db' id p')) /\
    projects db' !! id = Some p' /\
    project_members p' = ProjectsService.addToSet (project_members p) userIds /\
    tasks db' = tasks db /\ users db' = users db.
Proof.
  intros Hp. unfold ProjectsService.addMembers, projectModel_findByIdAndUpdate. simpl.
  unfold mbind, Async_bind. rewrite Hp. simpl.
  eexists _, _. split; [reflexivity|]. simpl.
  rewrite lookup_alter_eq, Hp. by repeat split.
Qed.

Lemma addMembers_admin_missing (db : Db) (now : Date) (id : string) (userIds : list string) :
  projects db !! id = None ->
  ProjectsService.addMembers now id userIds ADMIN db
  = (db, Rejected (NotFoundException "Project not found")).
Proof.
  intros Hp. unfold ProjectsService.addMembers, projectModel_findByIdAndUpdate. simpl.
  unfold mbind, Async_bind. rewrite Hp. simpl.
  rewrite alter_id by (intros x Hx; congruence). by destruct db.
Qed.

(** Every id given to [$addToSet] is a member afterwards, and every member
    stays one. *)
Lemma addToSet_elem_of (members userIds : list string) (x : string) :
  x ∈ ProjectsService.addToSet members userIds <-> x ∈ members \/ x ∈ userIds.
Proof.
  unfold ProjectsService.addToSet. revert members.
  induction userIds as [|u us IH]; intros members; simpl.
  - rewrite elem_of_nil. tauto.
  - rewrite IH, elem_of_cons.
    pose proof (isMemberOf_elem_of members u) as Hm.
    destruct (isMemberOf members u).
    + assert (u ∈ members) by by apply Hm. split; [tauto|].
      intros [?|[->|?]]; tauto.
    + rewrite elem_of_app, list_elem_of_singleton. tauto.
Qed.

(** C3. A caller who is not an admin is refused with 403 when deleting a
    task, deleting a project or adding members to a project, whether or
    not the target exists, and the database is unchanged; for an admin
    each of the three resolves when its target exists. *)
Theorem admin_only_operations
    (db : Db) (now : Date) (userRole : UserRole) (userIds : list string) (id : string) :
  (userRole <> ADMIN ->
     denied db (TasksService.remove id userRole db) /\
     denied db (ProjectsService.remove id userRole db) /\
     denied db (ProjectsService.addMembers now id userIds userRole db)) /\
  (forall t, tasks db !! id = Some t ->
     exists db1, TasksService.remove id ADMIN db = (db1, Resolved tt)
                 /\ tasks db1 !! id = None) /\
  (forall p, projects db !! id = Some p ->
     (exists db2, ProjectsService.remove id ADMIN db = (db2, Resolved tt)
                  /\ projects db2 !! id = None) /\
     (exists db3 r, ProjectsService.addMembers now id userIds ADMIN db = (db3, Resolved r)
                    /\ forall x, x ∈ userIds -> x ∈ project_members (pp_project r))).
Proof.
  split; [|split].
  - intros Hrole.
    rewrite (task_remove_not_admin db id userRole Hrole),
            (project_remove_not_admin db id userRole Hrole),
            (addMembers_not_admin db now id userIds userRole Hrole).
    by repeat split.
  - intros t Ht. eexists. split; [by apply (task_remove_admin db id t)|].
    simpl. apply lookup_delete_eq.
  - intros p Hp. split.
    + eexists. split; [by apply (project_remove_admin db id p)|].
      simpl. apply lookup_delete_eq.
    + destruct (addMembers_admin db now id userIds p Hp)
        as (db3 & p' & Hrun & _ & Hmem & _).
      exists db3, (ProjectsService.populateProject db3 id p').
      split; [exact Hrun|]. intros x Hx. simpl. rewrite Hmem.
      apply addToSet_elem_of. by right.
Qed.

(** C3 at the sample database: Ann is refused, whether the id names
    something or not, and the admin deletes task t1 and adds Eve to
    project p1. *)
Lemma admin_only_operations_witness :
  denied Sample.db (TasksService.remove "t1" MEMBER Sample.db) /\
  denied Sample.db (ProjectsService.remove "x404" MEMBER Sample.db) /\
  (exists db1, TasksService.remove "t1" ADMIN Sample.db = (db1, Resolved tt)
               /\ tasks db1 !! "t1" = None) /\
  (exists db3 r, ProjectsService.addMembers 10 "p1" ["u3"] ADMIN Sample.db
                 = (db3, Resolved r)
                 /\ forall x, x ∈ ["u3"] -> x ∈ project_members (pp_project r)).
Proof.
  destruct (admin_only_operations Sample.db 10 MEMBER ["u3"] "t1")
    as (Hdenied & Htask & _).
  destruct (admin_only_operations Sample.db 10 MEMBER ["u3"] "x404")
    as (Hmissing & _).
  destruct (admin_only_operations Sample.db 10 MEMBER ["u3"] "p1")
    as (_ & _ & Hproject).
  destruct Hdenied as (H1 & _); [discriminate|].
  destruct Hmissing as (_ & H2 & _); [discriminate|].
  destruct (Hproject Sample.alpha) as (_ & H4); [reflexivity|].
  refine (conj H1 (conj H2 (conj _ H4))).
  apply (Htask (Sample.task "p1" (Some "u2") TODO 1)). reflexivity.
Defined.

(** C7. Deleting an existing project as an admin removes the project
    document and nothing else: every task document is as it was, so the
    tasks of the project stay in the store and refer to a project that no
    longer exists. *)
Theorem project_delete_keeps_tasks (db : Db) (id : string) (p : Project) :
  projects db !! id = Some p ->
  exists db',
    ProjectsService.remove id ADMIN db = (db', Resolved tt) /\
    projects db' = delete id (projects db) /\
    tasks db' = tasks db /\ users db' = users db /\
    forall taskId t,
      tasks db !! taskId = Some t -> projectId t = id ->
      tasks db' !! taskId = Some t /\ projects db' !! projectId t = None.
Proof.
  intros Hp. eexists. split; [by apply (project_remove_admin db id p)|]. simpl.
  repeat split; [done|]. subst. apply lookup_delete_eq.
Qed.

(** C7 at the sample database: after project p1 is deleted, task t1 is
    still stored and still names p1. *)
Lemma project_delete_keeps_tasks_witness :
  exists db',
    ProjectsService.remove "p1" ADMIN Sample.db = (db', Resolved tt) /\
    tasks db' = tasks Sample.db /\
    tasks db' !! "t1" = Some (Sample.task "p1" (Some "u2") TODO 1) /\
    projects db' !! "p1" = None.
Proof.
  destruct (project_delete_keeps_tasks Sample.db "p1" Sample.alpha)
    as (db' & Hrun & _ & Htasks & _ & Horphan); [reflexivity|].
  exists db'. split; [exact Hrun|]. split; [exact Htasks|].
  apply (Horphan "t1" (Sample.task "p1" (Some "u2") TODO 1)); reflexivity.
Defined.

(** ** A missing project or task *)

Section Missing.

Variable textMatches : string -> Task -> bool.
Variable Date_parse : string -> Date.
Variable toISOString : Date -> string.
Variables (db : Db) (id : string) (userId : string) (userRole : UserRole).

Lemma project_missing newId now dto q res :
  projects db !! id = None ->
  notFound db (TasksService.create textMatches Date_parse newId now id dto userId userRole db) /\
  notFound db (TasksService.findAll textMatches Date_parse id q userId userRole db) /\
  notFound db (TasksService.getProjectSummary textMatches now id userId userRole db) /\
  notFound db (TasksService.exportToCsv textMatches toISOString now id res userId userRole db) /\
  notFound db (ProjectsService.findOne textMatches id userId userRole db).
Proof.
  intros Hp.
  unfold TasksService.create, TasksService.findAll, TasksService.getProjectSummary,
    TasksService.exportToCsv, ProjectsService.findOne, projectModel_findById.
  rewrite !bind_query, Hp. by repeat split.
Qed.

Lemma task_missing now dto :
  tasks db !! id = None ->
  notFound db (TasksService.findOne id userId userRole db) /\
  notFound db (TasksService.update Date_parse now id dto userId userRole db).
Proof.
  intros Ht. unfold TasksService.findOne, TasksService.update, taskModel_findById.
  rewrite !bind_query, Ht. by repeat split.
Qed.

(** The operations that look the target up first refuse with 403 only a
    target that exists. *)
Lemma forbidden_project_exists newId now dto q res :
  rejectedWith (TasksService.create textMatches Date_parse newId now id dto userId userRole db) 403 = true \/
  rejectedWith (TasksService.findAll textMatches Date_parse id q userId userRole db) 403 = true \/
  rejectedWith (TasksService.getProjectSummary textMatches now id userId userRole db) 403 = true \/
  rejectedWith (TasksService.exportToCsv textMatches toISOString now id res userId userRole db) 403 = true \/
  rejectedWith (ProjectsService.findOne textMatches id userId userRole db) 403 = true ->
  is_Some (projects db !! id).
Proof.
  destruct (projects db !! id) as [p|] eqn:Hp; [by eauto|].
  destruct (project_missing newId now dto q res Hp)
    as ([H1 _] & [H2 _] & [H3 _] & [H4 _] & [H5 _]).
  unfold rejectedWith in *.
  intros [H|[H|[H|[H|H]]]];
    [ destruct (TasksService.create _ _ _ _ _ _ _ _ _).2 as [|[]]
    | destruct (TasksService.findAll _ _ _ _ _ _ _).2 as [|[]]
    | destruct (TasksService.getProjectSummary _ _ _ _ _ _).2 as [|[]]
    | destruct (TasksService.exportToCsv _ _ _ _ _ _ _ _).2 as [|[]]
    | destruct (ProjectsService.findOne _ _ _ _ _).2 as [|[]] ]; done.
Qed.

Lemma forbidden_task_exists now dto :
  rejectedWith (TasksService.findOne id userId userRole db) 403 = true \/
  rejectedWith (TasksService.update Date_parse now id dto userId userRole db) 403 = true ->
  is_Some (tasks db !! id).
Proof.
  destruct (tasks db !! id) as [t|] eqn:Ht; [by eauto|].
  destruct (task_missing now dto Ht) as ([H1 _] & [H2 _]).
  unfold rejectedWith in *.
  intros [H|H];
    [ destruct (TasksService.findOne _ _ _ _).2 as [|[]]
    | destruct (TasksService.update _ _ _ _ _ _ _).2 as [|[]] ]; done.
Qed.

End Missing.

(** C8, as amended. The operations that look their target up first
    (creating, listing, reading and updating tasks, the summary, the
    export, viewing a project) answer a missing project or task with 404
    for every caller and role, and answer 403 only when the target exists.
    The admin-only operations (deleting a task, deleting a project, adding
    members) check the role first: a caller who is not an admin gets 403
    whether or not the target exists, and an admin gets 404 when it is
    missing. The database is unchanged in each case. *)
Theorem missing_target_status
    (textMatches : string -> Task -> bool) (Date_parse : string -> Date)
    (toISOString : Date -> string)
    (db : Db) (id : string) (userId : string) (userRole : UserRole)
    (newId : string) (now : Date) (dto : CreateTaskDto) (q : QueryTasksDto)
    (res : Response) (udto : UpdateTaskDto) (userIds : list string) :
  (projects db !! id = None ->
     notFound db (TasksService.create textMatches Date_parse newId now id dto userId userRole db) /\
     notFound db (TasksService.findAll textMatches Date_parse id q userId userRole db) /\
     notFound db (TasksService.getProjectSummary textMatches now id userId userRole db) /\
     notFound db (TasksService.exportToCsv textMatches toISOString now id res userId userRole db) /\
     notFound db (ProjectsService.findOne textMatches id userId userRole db) /\
     notFound db (ProjectsService.remove id ADMIN db) /\
     notFound db (ProjectsService.addMembers now id userIds ADMIN db)) /\
  (tasks db !! id = None ->
     notFound db (TasksService.findOne id userId userRole db) /\
     notFound db (TasksService.update Date_parse now id udto userId userRole db) /\
     notFound db (TasksService.remove id ADMIN db)) /\
  (userRole <> ADMIN ->
     denied db (TasksService.remove id userRole db) /\
     denied db (ProjectsService.remove id userRole db) /\
     denied db (ProjectsService.addMembers now id userIds userRole db)) /\
  (rejectedWith (TasksService.create textMatches Date_parse newId now id dto userId userRole db) 403 = true \/
   rejectedWith (TasksService.findAll textMatches Date_parse id q userId userRole db) 403 = true \/
   rejectedWith (TasksService.getProjectSummary textMatches now id userId userRole db) 403 = true \/
   rejectedWith (TasksService.exportToCsv textMatches toISOString now id res userId userRole db) 403 = true \/
   rejectedWith (ProjectsService.findOne textMatches id userId userRole db) 403 = true ->
   is_Some (projects db !! id)) /\
  (rejectedWith (TasksService.findOne id userId userRole db) 403 = true \/
   rejectedWith (TasksService.update Date_parse now id udto userId userRole db) 403 = true ->
   is_Some (tasks db !! id)).
Proof.
  split; [|split; [|split; [|split]]].
  - intros Hp.
    destruct (project_missing textMatches Date_parse toISOString db id userId userRole
                newId now dto q res Hp) as (H1 & H2 & H3 & H4 & H5).
    rewrite (project_remove_admin_missing db id Hp),
            (addMembers_admin_missing db now id userIds Hp).
    refine (conj H1 (conj H2 (conj H3 (conj H4 (conj H5 (conj _ _)))))); by split.
  - intros Ht.
    destruct (task_missing Date_parse db id userId userRole now udto Ht) as (H1 & H2).
    rewrite (task_remove_admin_missing db id Ht).
    refine (conj H1 (conj H2 _)). by split.
  - intros Hrole.
    rewrite (task_remove_not_admin db id userRole Hrole),
            (project_remove_not_admin db id userRole Hrole),
            (addMembers_not_admin db now id userIds userRole Hrole).
    by repeat split.
  - apply forbidden_project_exists.
  - apply forbidden_task_exists.
Qed.

(** C8 at the sample database, for an id that names nothing. *)
Lemma missing_target_status_witness :
  notFound Sample.db (TasksService.findOne "x404" "u1" MEMBER Sample.db) /\
  notFound Sample.db (TasksService.remove "x404" ADMIN Sample.db) /\
  notFound Sample.db
    (TasksService.getProjectSummary Sample.textMatches 10 "x404" "u1" MEMBER Sample.db) /\
  denied Sample.db (ProjectsService.remove "x404" MEMBER Sample.db).
Proof.
  destruct (missing_target_status Sample.textMatches Sample.Date_parse Sample.toISOString
              Sample.db "x404" "u1" MEMBER "t9" 10 Sample.createDto
              (Sample.queryDto None None) Sample.res Sample.updateDto ["u3"])
    as (Hproject & Htask & Hrole & _).
  destruct Hproject as (_ & _ & H3 & _); [reflexivity|].
  destruct Htask as (H1 & _ & H2); [reflexivity|].
  destruct Hrole as (_ & H4 & _); [discriminate|].
  by repeat split.
Defined.

(** C8 as stated fails for the admin-only operations: a member who deletes
    a task that does not exist is answered 403, not 404. *)
Lemma missing_task_delete_is_forbidden :
  tasks Sample.db !! "x404" = None /\
  TasksService.remove "x404" MEMBER Sample.db
  = (Sample.db, Rejected (ForbiddenException "Only admins can delete tasks")) /\
  getStatus (ForbiddenException "Only admins can delete tasks") = 403.
Proof. by repeat split. Qed.

(** ** Listing the tasks of a project *)

Lemma matches_buildFilter (textMatches : string -> Task -> bool)
    (Date_parse : string -> Date) (projectId_ : string) (q : QueryTasksDto)
    (doc : string * Task) :
  matches textMatches (TasksService.buildFilter Date_parse projectId_ q) doc
  = selects textMatches Date_parse projectId_ q doc.2.
Proof.
  unfold matches, TasksService.buildFilter, selects.
  destruct q as [st asg txt pr from to pg lim]; simpl.
  destruct st as [s|], asg as [[|? ?]|], pr as [pr|], from as [[|? ?]|],
    to as [[|? ?]|], txt as [[|? ?]|]; simpl;
    rewrite <- ?andb_assoc, ?andb_true_r, ?andb_true_l; reflexivity.
Qed.

#[export] Instance newerFirst_total : Total newerFirst.
Proof. intros a b. unfold newerFirst. lia. Qed.

Lemma sort_createdAt_desc_Permutation (l : list (string * Task)) :
  sort_createdAt_desc l ≡ₚ l.
Proof. apply merge_sort_Permutation. Qed.

Lemma sort_createdAt_desc_Sorted (l : list (string * Task)) :
  Sorted newerFirst (sort_createdAt_desc l).
Proof. apply (Sorted_merge_sort newerFirst). Qed.

Lemma Math_ceil_div_bounds (a b : Z) :
  0 < b -> (Math_ceil_div a b - 1) * b < a <= Math_ceil_div a b * b.
Proof.
  intros Hb. unfold Math_ceil_div.
  pose proof (Z.mul_div_le (- a) b Hb).
  pose proof (Z.mul_succ_div_gt (- a) b Hb). lia.
Qed.

(** On small operands, [Math.ceil] of the double quotient is the integer
    [Math_ceil_div] computes. *)
Lemma Math_ceil_div_doubles :
  forallb (fun a =>
    forallb (fun b =>
      bool_decide (Number_ceil (Number_div (Number_of_Z (Z.of_nat a)) (Number_of_Z (Z.of_nat b)))
                   = Some (Math_ceil_div (Z.of_nat a) (Z.of_nat b))))
      (seq 1 48))
    (seq 0 64) = true.
Proof. vm_compute. reflexivity. Qed.




(** ** The CSV export *)

Lemma lines_noLineFeed (s : string) : noLineFeed s = true -> lines s = [s].
Proof.
  induction s as [|c r IH]; simpl; [done|].
  intros H. apply andb_prop in H as [Hc Hr].
  destruct (Ascii.eqb c "010"); [done|]. by rewrite (IH Hr).
Qed.

Lemma lines_append (s r : string) :
  noLineFeed s = true -> lines (s +:+ LF +:+ r) = s :: lines r.
Proof.
  induction s as [|c s IH]; simpl; [done|].
  intros H. apply andb_prop in H as [Hc Hs].
  destruct (Ascii.eqb c "010"); [done|]. by rewrite (IH Hs).
Qed.

Lemma lines_join (l : list string) :
  l <> [] -> forallb noLineFeed l = true -> lines (join LF l) = l.
Proof.
  induction l as [|x [|y l] IH]; [done| |].
  - intros _ H. simpl in *. apply lines_noLineFeed. by rewrite andb_true_r in H.
  - intros _ H. change (join LF (x :: y :: l)) with (x +:+ LF +:+ join LF (y :: l)).
    simpl in H. apply andb_prop in H as [Hx H].
    rewrite (lines_append _ _ Hx). f_equal. by apply IH.
Qed.

Lemma append_assoc (a b c : string) : (a +:+ b) +:+ c = a +:+ (b +:+ c).
Proof.
  induction a as [|x a IH]; [reflexivity|].
  change (String x ((a +:+ b) +:+ c) = String x (a +:+ (b +:+ c))). by rewrite IH.
Qed.

Lemma csvLine_columns (row : CsvRow) :
  csvLine row = join "," (quoted <$> columns row).
Proof.
  unfold csvLine, columns, quoted. cbn [fmap list_fmap join].
  by rewrite !append_assoc.
Qed.

Lemma csvRowOf_describes (toISOString : Date -> string) (task : PopulatedTask)
    (row : CsvRow) :
  TasksService.csvRowOf toISOString task = Some row -> describes toISOString task row.
Proof.
  unfold TasksService.csvRowOf, describes.
  destruct (pt_createdBy task) as [creator|]; [|done]. simpl.
  intros [= <-]. simpl.
  repeat split.
  - by destruct (description (pt_task task)) as [[|c s]|].
  - by destruct (pt_assignee task).
  - by destruct (pt_assignee task).
  - by destruct (dueDate (pt_task task)).
Qed.

Lemma find_projectTasks (textMatches : string -> Task -> bool) (db : Db)
    (projectId_ : string) :
  find textMatches [projectId_eq projectId_] db = projectTasks db projectId_.
Proof.
  unfold find, projectTasks. apply filter_ext. intros doc.
  unfold matches. simpl. apply andb_true_r.
Qed.

Section CsvExport.

Variable textMatches : string -> Task -> bool.
Variable toISOString : Date -> string.
Variables (db : Db) (projectId_ : string) (now : Date) (res : Response)
  (userId : string) (userRole : UserRole).

(** What a resolved export has sent. *)
Lemma exportToCsv_resolved_inv db' res' :
  TasksService.exportToCsv textMatches toISOString now projectId_ res userId userRole db
  = (db', Resolved res') ->
  db' = db /\
  exists p csvData,
    projects db !! projectId_ = Some p /\
    mapM (TasksService.csvRowOf toISOString)
         (populate db <$> sort_createdAt_desc (projectTasks db projectId_)) = Some csvData /\
    res' = send (join LF (csvHeader :: (csvLine <$> csvData)))
             (setHeader "Content-Disposition"
                ("attachment; filename=" +:+ DQ
                 +:+ (replaceWhitespaceRuns false (project_name p) +:+ "_tasks_"
                      +:+ splitHead "T" (toISOString now) +:+ ".csv") +:+ DQ)
                (setHeader "Content-Type" "text/csv" res)).
Proof.
  unfold TasksService.exportToCsv, projectModel_findById. erewrite bind_query.
  destruct (projects db !! projectId_) as [p|] eqn:Hp; [|done].
  set (gate := if negb (UserRole_eqb userRole ADMIN) then _ else _).
  assert (Hgate : gate db = (db, Resolved tt) \/ exists e, gate db = (db, Rejected e)).
  { destruct (access_block textMatches db projectId_ p userId userRole) as [Hyes Hno].
    simpl in Hyes, Hno. fold gate in Hyes, Hno.
    destruct userRole; [left; apply Hyes; by left|].
    destruct (exists_assigned textMatches db projectId_ userId) as (b & Hb & Hiff).
    destruct (isMemberOf (project_members p) userId) eqn:Hm.
    - left. apply Hyes. right; left. by apply isMemberOf_elem_of.
    - destruct b.
      + left. apply Hyes. right; right. by apply Hiff.
      + right. eexists. apply Hno. intros [H|[H|H]]; [done| |].
        * apply isMemberOf_elem_of in H. congruence.
        * by apply Hiff in H. }
  destruct Hgate as [Hgate | [e Hgate]].
  2: { erewrite bind_rejected by exact Hgate. done. }
  erewrite bind_resolved by exact Hgate. erewrite bind_query.
  rewrite find_projectTasks.
  destruct (mapM _ _) as [csvData|] eqn:Hrows; [|done].
  intros [= <- <-]. split; [done|]. by exists p, csvData.
Qed.

(** An export that passes the access check resolves when the creator of
    every task of the project exists. *)
Lemma exportToCsv_resolves p :
  projects db !! projectId_ = Some p ->
  mayAccess db projectId_ p userId userRole ->
  (forall id t, tasks db !! id = Some t -> projectId t = projectId_ ->
                is_Some (users db !! createdBy t)) ->
  exists res',
    TasksService.exportToCsv textMatches toISOString now projectId_ res userId userRole db
    = (db, Resolved res').
Proof.
  intros Hp Hy Hcreators.
  unfold TasksService.exportToCsv, projectModel_findById. erewrite bind_query. rewrite Hp.
  destruct (access_block textMatches db projectId_ p userId userRole) as [Hyes _].
  simpl in Hyes. erewrite bind_resolved by exact (Hyes Hy). erewrite bind_query.
  rewrite find_projectTasks.
  destruct (mapM _ _) as [csvData|] eqn:Hrows; [by eexists|].
  exfalso. apply mapM_None in Hrows.
  apply Exists_exists in Hrows as (task & Hin & Hnone).
  apply list_elem_of_fmap in Hin as (doc & -> & Hdoc).
  rewrite sort_createdAt_desc_Permutation in Hdoc.
  unfold projectTasks in Hdoc.
  rewrite list_elem_of_In, filter_In, <- list_elem_of_In in Hdoc.
  destruct Hdoc as [Hdoc Hpid]. destruct doc as [id t]. simpl in *.
  apply elem_of_map_to_list in Hdoc. apply String.eqb_eq in Hpid.
  destruct (Hcreators id t Hdoc Hpid) as [u Hu].
  unfold TasksService.csvRowOf, populate, populateUser in Hnone. simpl in Hnone.
  by rewrite Hu in Hnone.
Qed.

End CsvExport.

Lemma splitHead_noLineFeed (s : string) :
  noLineFeed s = true -> splitHead "010" s = s.
Proof.
  induction s as [|c s IH]; simpl; [done|].
  intros H. apply andb_prop in H as [Hc Hs].
  destruct (Ascii.eqb c "010"); [done|]. by rewrite (IH Hs).
Qed.

Lemma splitHead_append (s r : string) :
  noLineFeed s = true -> splitHead "010" (s +:+ LF +:+ r) = s.
Proof.
  induction s as [|c s IH]; [done|].
  change (String c s +:+ LF +:+ r) with (String c (s +:+ LF +:+ r)). simpl.
  intros H. apply andb_prop in H as [Hc Hs].
  destruct (Ascii.eqb c "010"); [done|]. by rewrite (IH Hs).
Qed.

Lemma splitHead_join (header : string) (rows : list string) :
  noLineFeed header = true -> splitHead "010" (join LF (header :: rows)) = header.
Proof.
  intros H. destruct rows as [|row rows].
  - by apply splitHead_noLineFeed.
  - change (join LF (header :: row :: rows)) with (header +:+ LF +:+ join LF (row :: rows)).
    by apply splitHead_append.
Qed.



(** C6. A resolved export has set Content-Type to text/csv and
    Content-Disposition to an attachment with a file name, and has sent a
    text whose first line is the fixed header and whose other lines are
    the rows of the tasks of the project: each row is its eleven columns
    in the order of the header, every column between double quotes, with
    commas in between, and the description, assignee, assignee email and
    due date are empty when the task has none. *)
Theorem export_format
    (textMatches : string -> Task -> bool) (toISOString : Date -> string)
    (db : Db) (projectId_ : string) (now : Date) (res : Response)
    (userId : string) (userRole : UserRole) (db' : Db) (res' : Response) :
  TasksService.exportToCsv textMatches toISOString now projectId_ res userId userRole db
  = (db', Resolved res') ->
  headers res' !! "Content-Type" = Some "text/csv" /\
  (exists filename,
     headers res' !! "Content-Disposition"
     = Some ("attachment; filename=" +:+ quoted filename)) /\
  exists exported rows text,
    exported ≡ₚ populate db <$> projectTasks db projectId_ /\
    Forall2 (describes toISOString) exported rows /\
    Forall (fun row => length (columns row) = 11%nat) rows /\
    body res' = Some text /\
    text = join LF (csvHeader :: ((fun row => join "," (quoted <$> columns row)) <$> rows)) /\
    splitHead "010" text = csvHeader.
Proof.
  intros Hrun.
  destruct (exportToCsv_resolved_inv textMatches toISOString db projectId_ now res
              userId userRole db' res' Hrun) as (-> & p & csvData & _ & Hrows & ->).
  split. { simpl. by rewrite lookup_insert_ne, lookup_insert_eq. }
  split. { eexists. simpl. by rewrite lookup_insert_eq. }
  exists (populate db <$> sort_createdAt_desc (projectTasks db projectId_)), csvData.
  eexists. split; [|split; [|split; [|split; [reflexivity|split]]]].
  - by rewrite sort_createdAt_desc_Permutation.
  - apply mapM_Some_1 in Hrows. eapply Forall2_impl; [exact Hrows|].
    intros task row. apply csvRowOf_describes.
  - by apply Forall_forall.
  - f_equal. f_equal. apply list_fmap_ext. intros _ row _. apply csvLine_columns.
  - by apply splitHead_join.
Qed.

(** C6 at the sample database: the headers and the first line of what Ann
    exports from project p1. *)
Lemma export_format_witness :
  exists res' text,
    TasksService.exportToCsv Sample.textMatches Sample.toISOString 10 "p1" Sample.res
      "u1" MEMBER Sample.db = (Sample.db, Resolved res') /\
    headers res' !! "Content-Type" = Some "text/csv" /\
    headers res' !! "Content-Disposition"
    = Some ("attachment; filename=" +:+ quoted "Project_Alpha_tasks_2025-01-01.csv") /\
    body res' = Some text /\
    splitHead "010" text = csvHeader.
Proof.
  pose (run := TasksService.exportToCsv Sample.textMatches Sample.toISOString 10 "p1"
                 Sample.res "u1" MEMBER Sample.db).
  assert (Hrun : run = (Sample.db,
            Resolved (match run.2 with Resolved r => r | Rejected _ => Sample.res end)))
    by reflexivity.
  destruct (export_format Sample.textMatches Sample.toISOString Sample.db "p1" 10
              Sample.res "u1" MEMBER _ _ Hrun)
    as (Htype & _ & exported & rows & text & _ & _ & _ & Hbody & _ & Hhead).
  eexists _, text. split; [exact Hrun|]. split; [exact Htype|].
  split; [reflexivity|]. by split.
Defined.

(** ** The project summary *)

Lemma filter_andb {A} (f g : A -> bool) (l : list A) :
  List.filter (fun x => f x && g x) l = List.filter g (List.filter f l).
Proof.
  induction l as [|x l IH]; [done|]. simpl.
  destruct (f x); simpl; [destruct (g x)|]; by rewrite IH.
Qed.

Lemma count_projectTasks (textMatches : string -> Task -> bool) (db : Db)
    (projectId_ : string) (conds : list Condition) :
  length (find textMatches (projectId_eq projectId_ :: conds) db)
  = length (List.filter (fun doc => forallb (fun c => holds textMatches c doc.2) conds)
                        (projectTasks db projectId_)).
Proof. unfold find, projectTasks, matches. simpl. by rewrite filter_andb. Qed.

Lemma countWhere_le (db : Db) (projectId_ : string) (cond : Task -> bool) :
  0 <= countWhere db projectId_ cond <= countWhere db projectId_ (fun _ => true).
Proof.
  unfold countWhere. split; [lia|]. apply inj_le.
  induction (projectTasks db projectId_) as [|doc l IH]; simpl; [done|].
  destruct (cond doc.2); simpl; lia.
Qed.

(** For a project of at most 100 tasks. *)
Lemma rateAccurate_checked :
  forallb (fun t => forallb (fun d => rateAccurate (Z.of_nat d) (Z.of_nat t)) (seq 0 (S t)))
          (seq 1 100) = true.
Proof. vm_compute. reflexivity. Qed.

Lemma rateAccurate_small (done_ total_ : Z) :
  0 <= done_ <= total_ -> 0 < total_ <= 100 -> rateAccurate done_ total_ = true.
Proof.
  intros Hd Ht. pose proof rateAccurate_checked as H.
  rewrite forallb_forall in H.
  specialize (H (Z.to_nat total_)). rewrite forallb_forall in H.
  specialize (H ltac:(apply in_seq; lia) (Z.to_nat done_) ltac:(apply in_seq; lia)).
  by rewrite !Z2Nat.id in H by lia.
Qed.

Section Summary.

Variable textMatches : string -> Task -> bool.
Variables (db : Db) (projectId_ : string) (now : Date)
  (userId : string) (userRole : UserRole).

Lemma count_where (conds : list Condition) (cond : Task -> bool) :
  (forall t, forallb (fun c => holds textMatches c t) conds = cond t) ->
  Z.of_nat (length (find textMatches (projectId_eq projectId_ :: conds) db))
  = countWhere db projectId_ cond.
Proof.
  intros H. rewrite count_projectTasks. unfold countWhere. do 2 f_equal.
  apply filter_ext. intros doc. apply H.
Qed.

(** What a resolved summary holds. *)
Lemma getProjectSummary_resolved_inv db' s :
  TasksService.getProjectSummary textMatches now projectId_ userId userRole db
  = (db', Resolved s) ->
  db' = db /\
  s = {| summary_total := countWhere db projectId_ (fun _ => true);
         summary_todo := countWhere db projectId_ (fun t => TaskStatus_eqb (status t) TODO);
         summary_inProgress :=
           countWhere db projectId_ (fun t => TaskStatus_eqb (status t) IN_PROGRESS);
         summary_done := countWhere db projectId_ (fun t => TaskStatus_eqb (status t) DONE);
         summary_overdue := countWhere db projectId_ (isOverdue now);
         completionRate :=
           if 0 <? countWhere db projectId_ (fun _ => true)
           then rateOf (countWhere db projectId_ (fun t => TaskStatus_eqb (status t) DONE))
                       (countWhere db projectId_ (fun _ => true))
           else Number_of_Z 0 |}.
Proof.
  unfold TasksService.getProjectSummary, projectModel_findById. erewrite bind_query.
  destruct (projects db !! projectId_) as [p|]; [|done].
  set (gate := if negb (UserRole_eqb userRole ADMIN) then _ else _).
  assert (Hgate : gate db = (db, Resolved tt) \/ exists e, gate db = (db, Rejected e)).
  { subst gate. destruct userRole; simpl; [by left|].
    destruct (isMemberOf _ _); simpl; [by left | right; by eexists]. }
  destruct Hgate as [Hgate | [e Hgate]].
  2: { erewrite bind_rejected by exact Hgate. done. }
  erewrite bind_resolved by exact Hgate.
  unfold countDocuments. rewrite !bind_query. cbv beta.
  rewrite (count_where [] (fun _ => true)),
    (count_where [status_eq TODO] (fun t => TaskStatus_eqb (status t) TODO)),
    (count_where [status_eq IN_PROGRESS] (fun t => TaskStatus_eqb (status t) IN_PROGRESS)),
    (count_where [status_eq DONE] (fun t => TaskStatus_eqb (status t) DONE)),
    (count_where [dueDate_lt now; status_ne DONE] (isOverdue now))
    by (intros t; unfold isOverdue; simpl; rewrite ?andb_true_r; reflexivity).
  unfold mret, Async_ret. intros [= <- <-]. by split.
Qed.

End Summary.



